(** * Announcement endpoints of the Mergington High School API

    A shallow embedding of [src/backend/routers/announcements.py] and the
    properties of its four endpoints (list, add, update, delete).

    The endpoints are written against a document collection and three
    declared request/response models.  Documents are schemaless maps from
    field names to values; the collection is an interface with one operation
    per driver call the router makes, together with a list-backed instance
    that gives those calls the document-store meaning. *)

From Stdlib Require Import ZArith NArith Ascii String.
From stdpp Require Import base option list gmap strings.

Open Scope string_scope.
Open Scope list_scope.
Open Scope Z_scope.

(** ** Native document ids: [bson.ObjectId] *)

Module ObjectId.

(** An ObjectId is its byte string ([binary]). *)
Record t := mk { binary : list N }.

#[global] Instance eq_dec : EqDecision t.
Proof. solve_decision. Defined.

Definition hex_value (c : ascii) : option N :=
  let n := N_of_ascii c in
  if ((48 <=? n) && (n <=? 57))%N then Some (n - 48)%N
  else if ((97 <=? n) && (n <=? 102))%N then Some (n - 87)%N
  else if ((65 <=? n) && (n <=? 70))%N then Some (n - 55)%N
  else None.

Definition is_space (c : ascii) : bool :=
  let n := N_of_ascii c in
  ((9 <=? n) && (n <=? 13) || (n =? 32))%N.

(** [bytes.fromhex]: two hexadecimal digits per byte, ASCII whitespace
    between bytes skipped. *)
Fixpoint fromhex (s : string) : option (list N) :=
  match s with
  | EmptyString => Some []
  | String c rest =>
      if is_space c then fromhex rest
      else
        match rest with
        | EmptyString => None
        | String c' rest' =>
            match hex_value c, hex_value c' with
            | Some h, Some l => cons (16 * h + l)%N <$> fromhex rest'
            | _, _ => None
            end
        end
  end.

(** [ObjectId(oid)] for a [str] argument: the text must have 24
    characters and decode as hexadecimal, otherwise [InvalidId] ([None]). *)
Definition init (oid : string) : option t :=
  if (String.length oid =? 24)%nat then mk <$> fromhex oid else None.

(** [ObjectId.is_valid(oid)]: whether [ObjectId(oid)] can be built. *)
Definition is_valid (oid : string) : bool :=
  match init oid with Some _ => true | None => false end.

Definition hex_digit (n : N) : ascii :=
  if (n <? 10)%N then ascii_of_N (48 + n) else ascii_of_N (87 + n).

Fixpoint hexlify (bs : list N) : string :=
  match bs with
  | [] => EmptyString
  | b :: rest =>
      String (hex_digit (b / 16)) (String (hex_digit (b mod 16)) (hexlify rest))
  end.

(** [str(oid)]: the lower-case hexadecimal text of the bytes. *)
Definition str (o : t) : string := hexlify (binary o).

End ObjectId.

(** ** Field values and documents *)

(** The values a field of an announcement document (or of a decoded request
    body) takes in this module.  On the wire [VDate t] stands for a value the
    datetime validator reads as the instant [t]. *)
Inductive value :=
| VNull
| VStr (s : string)
| VDate (t : Z)
| VOid (o : ObjectId.t).

#[global] Instance value_eq_dec : EqDecision value.
Proof. solve_decision. Defined.

(** A document is a Python [dict] keyed by field name. *)
Abbreviation doc := (gmap string value).

(** ** Errors and results *)

Inductive error :=
| HTTPException (status_code : Z) (detail : string)
| RequestValidationError   (* the request body does not fit the declared
                             model; answered with status 422 *)
| ResponseValidationError  (* the [Announcement] model rejects the document
                             inside the endpoint; not handled *)
| DuplicateKeyError.       (* raised by the driver; not handled *)

Inductive result (A : Type) :=
| Ok (a : A)
| Raise (e : error).
Arguments Ok {A} a.
Arguments Raise {A} e.

Definition of_option {A} (e : error) (o : option A) : result A :=
  match o with Some a => Ok a | None => Raise e end.

(** A [for] loop that appends [f x] for each [x] and stops at the first
    exception. *)
Fixpoint for_each {A B} (f : A → result B) (l : list A) : result (list B) :=
  match l with
  | [] => Ok []
  | x :: rest =>
      match f x with
      | Raise e => Raise e
      | Ok y =>
          match for_each f rest with
          | Raise e => Raise e
          | Ok ys => Ok (y :: ys)
          end
      end
  end.

(** ** Field validators of the declared models *)

(** [str] (required). *)
Definition field_str (v : option value) : option string :=
  match v with Some (VStr s) => Some s | _ => None end.

(** [Optional[str] = None]. *)
Definition field_opt_str (v : option value) : option (option string) :=
  match v with
  | None | Some VNull => Some None
  | Some (VStr s) => Some (Some s)
  | Some _ => None
  end.

(** [datetime] (required). *)
Definition field_datetime (v : option value) : option Z :=
  match v with Some (VDate t) => Some t | _ => None end.

(** [Optional[datetime] = None]. *)
Definition field_opt_datetime (v : option value) : option (option Z) :=
  match v with
  | None | Some VNull => Some None
  | Some (VDate t) => Some (Some t)
  | Some _ => None
  end.

(** [Field(..., min_length=1)]. *)
Definition min_length (n : nat) (s : string) : bool :=
  (n <=? String.length s)%nat.

(** ** The three models *)

Module Announcement.

Record t := mk {
  id : option string;
  title : string;
  message : string;
  created_at : Z;
  start_date : option Z;
  expiration_date : Z;
  author : string
}.

Definition validate (d : doc) : option t :=
  i ← field_opt_str (d !! "_id");
  ti ← field_str (d !! "title");
  m ← field_str (d !! "message");
  c ← field_datetime (d !! "created_at");
  s ← field_opt_datetime (d !! "start_date");
  e ← field_datetime (d !! "expiration_date");
  a ← field_str (d !! "author");
  Some (mk i ti m c s e a).

(** The [Announcement] model built from the keys of a document: [id] is
    read from the alias [_id], keys that are not fields are ignored, and a
    field that does not validate raises. *)
Definition init (d : doc) : result t :=
  of_option ResponseValidationError (validate d).

End Announcement.

Module AnnouncementCreate.

Record t := mk {
  title : string;
  message : string;
  start_date : option Z;
  expiration_date : Z
}.

(** The request body read as an [AnnouncementCreate]. *)
Definition parse (body : doc) : option t :=
  ti ← field_str (body !! "title");
  m ← field_str (body !! "message");
  s ← field_opt_datetime (body !! "start_date");
  e ← field_datetime (body !! "expiration_date");
  if min_length 1 ti && min_length 1 m then Some (mk ti m s e) else None.

End AnnouncementCreate.

Module AnnouncementUpdate.

(** Every field is optional; the outer [option] records whether the field
    was set by the request ([None]: unset), the inner one its value
    ([Some None]: set to null). *)
Record t := mk {
  title : option (option string);
  message : option (option string);
  start_date : option (option Z);
  expiration_date : option (option Z)
}.

Definition supplied {A} (validate : option value → option (option A))
    (v : option value) : option (option (option A)) :=
  match v with
  | None => Some None
  | Some _ => Some <$> validate v
  end.

(** The request body read as an [AnnouncementUpdate]. *)
Definition parse (body : doc) : option t :=
  ti ← supplied field_opt_str (body !! "title");
  m ← supplied field_opt_str (body !! "message");
  s ← supplied field_opt_datetime (body !! "start_date");
  e ← supplied field_opt_datetime (body !! "expiration_date");
  Some (mk ti m s e).

Definition put {A} (k : string) (enc : A → value)
    (f : option (option A)) (m : doc) : doc :=
  match f with
  | None => m
  | Some None => <[k := VNull]> m
  | Some (Some a) => <[k := enc a]> m
  end.

(** [data.dict(exclude_unset=True)]: the fields the request set. *)
Definition dict_exclude_unset (data : t) : doc :=
  put "title" VStr (title data)
    (put "message" VStr (message data)
       (put "start_date" VDate (start_date data)
          (put "expiration_date" VDate (expiration_date data) ∅))).

End AnnouncementUpdate.

(** ** Queries *)

(** The conditions the router puts on a field: equality with a value
    ([{"_id": v}]) and [{"$gt": now}] with a datetime operand. *)
Inductive condition :=
| CEq (v : value)
| CGt (now : Z).

(** A query is a conjunction of field conditions; [[]] is [{}]. *)
Abbreviation query := (list (string * condition)).

(** ** The collaborators *)

(** Modelled from the spec: the identity returned by [get_current_user]
    (declared in [src/backend/routers/auth.py], not among the sources), of
    which the router reads [user["username"]]. *)
Record identity := { username : string }.

(** Modelled from the spec: [announcements_collection] (declared in
    [src/backend/database.py], not among the sources), the document store
    collaborator: filtered find, insert returning the generated id, atomic
    find-and-set-fields returning a record, and delete returning a count.
    [insert_one] receives the ObjectId the driver generates for a document
    that carries no [_id]; [find_one_and_update] receives the fields of
    [$set] and the [return_document] flag. *)
Class Collection (C : Type) := {
  find : query → C → list doc;
  insert_one : ObjectId.t → doc → C → result ObjectId.t * C;
  find_one_and_update : query → doc → bool → C → option doc * C;
  delete_one : query → C → nat * C
}.

(** ** The endpoints *)

Section Router.

Context {C : Type} `{Collection C}.

(** [if isinstance(doc.get("_id"), ObjectId): doc["_id"] = str(doc["_id"])] *)
Definition stringify_id (d : doc) : doc :=
  match d !! "_id" with
  | Some (VOid o) => <["_id" := VStr (ObjectId.str o)]> d
  | _ => d
  end.

(** [active_only] is the optional query parameter ([None]: not given). *)
Definition list_announcements (now : Z) (active_only : option bool) (c : C)
    : result (list Announcement.t) :=
  let active_only := default true active_only in
  let query := [("expiration_date", CGt now)] in
  let docs := if active_only then find query c else find [] c in
  for_each (λ d, Announcement.init (stringify_id d)) docs.

(** [now] is [datetime.utcnow()] at the call and [gen] the ObjectId the
    driver generates for the inserted document. *)
Definition add_announcement (now : Z) (gen : ObjectId.t)
    (data : AnnouncementCreate.t) (user : identity) (c : C)
    : result Announcement.t * C :=
  let d : doc :=
    <["title" := VStr (AnnouncementCreate.title data)]>
    (<["message" := VStr (AnnouncementCreate.message data)]>
    (<["created_at" := VDate now]>
    (<["start_date" :=
        from_option VDate VNull (AnnouncementCreate.start_date data)]>
    (<["expiration_date" := VDate (AnnouncementCreate.expiration_date data)]>
    (<["author" := VStr (username user)]> ∅))))) in
  match insert_one gen d c with
  | (Raise e, c') => (Raise e, c')
  | (Ok inserted_id, c') =>
      let d := <["_id" := VStr (ObjectId.str inserted_id)]> d in
      (Announcement.init d, c')
  end.

(** [ObjectId(announcement_id) if ObjectId.is_valid(announcement_id)
    else announcement_id] *)
Definition id_value (announcement_id : string) : value :=
  match ObjectId.init announcement_id with
  | Some o => VOid o
  | None => VStr announcement_id
  end.

Definition update_announcement (announcement_id : string)
    (data : AnnouncementUpdate.t) (c : C) : result Announcement.t * C :=
  let update_fields := AnnouncementUpdate.dict_exclude_unset data in
  if decide (update_fields = ∅) then
    (Raise (HTTPException 400 "No fields to update."), c)
  else
    let query := [("_id", CEq (id_value announcement_id))] in
    match find_one_and_update query update_fields true c with
    | (None, c') => (Raise (HTTPException 404 "Announcement not found."), c')
    | (Some r, c') =>
        if decide (r = ∅) then
          (Raise (HTTPException 404 "Announcement not found."), c')
        else (Announcement.init (stringify_id r), c')
    end.

(** The success marker [{"success": True}] is [Ok true]. *)
Definition delete_announcement (announcement_id : string) (c : C)
    : result bool * C :=
  let query := [("_id", CEq (id_value announcement_id))] in
  let '(deleted_count, c') := delete_one query c in
  if (deleted_count =? 0)%nat then
    (Raise (HTTPException 404 "Announcement not found."), c')
  else (Ok true, c').

(** The two routes that take a body, with the body as received: it is read
    into the declared model before the endpoint runs. *)
Definition post_announcements (now : Z) (gen : ObjectId.t) (body : doc)
    (user : identity) (c : C) : result Announcement.t * C :=
  match AnnouncementCreate.parse body with
  | None => (Raise RequestValidationError, c)
  | Some data => add_announcement now gen data user c
  end.

Definition put_announcements (announcement_id : string) (body : doc) (c : C)
    : result Announcement.t * C :=
  match AnnouncementUpdate.parse body with
  | None => (Raise RequestValidationError, c)
  | Some data => update_announcement announcement_id data c
  end.

End Router.

(** ** The document store as a list of documents *)

Module Store.

Definition holds (c : condition) (v : option value) : bool :=
  match c with
  | CEq w => bool_decide (v = Some w)
  | CGt now => match v with Some (VDate t) => (now <? t)%Z | _ => false end
  end.

Definition matches (q : query) (d : doc) : bool :=
  forallb (λ kc, holds kc.2 (d !! kc.1)) q.

(** [$set]: the given fields replace or extend those of the document. *)
Definition set_fields (fields d : doc) : doc := fields ∪ d.

Fixpoint update_first (q : query) (fields : doc) (after : bool)
    (st : list doc) : option doc * list doc :=
  match st with
  | [] => (None, [])
  | d :: rest =>
      if matches q d then
        let d' := set_fields fields d in
        (Some (if after then d' else d), d' :: rest)
      else
        let '(r, rest') := update_first q fields after rest in
        (r, d :: rest')
  end.

Fixpoint delete_first (q : query) (st : list doc) : nat * list doc :=
  match st with
  | [] => (0%nat, [])
  | d :: rest =>
      if matches q d then (1%nat, rest)
      else
        let '(n, rest') := delete_first q rest in
        (n, d :: rest')
  end.

Definition has_id (v : value) (st : list doc) : bool :=
  existsb (λ d, bool_decide (d !! "_id" = Some v)) st.

(** [_id] is unique in a collection: inserting under an id in use raises. *)
Definition insert (gen : ObjectId.t) (d : doc) (st : list doc)
    : result ObjectId.t * list doc :=
  if has_id (VOid gen) st then (Raise DuplicateKeyError, st)
  else (Ok gen, st ++ [<["_id" := VOid gen]> d]).

#[global] Instance list_collection : Collection (list doc) := {|
  find q st := List.filter (matches q) st;
  insert_one := insert;
  find_one_and_update := update_first;
  delete_one := delete_first
|}.

End Store.

(** ** A collection that only records the calls made on it *)

Module Recorder.

Inductive call :=
| InsertOne (d : doc)
| FindOneAndUpdate (q : query) (fields : doc)
| DeleteOne (q : query).

(** The state is the log of calls; every call finds nothing. *)
#[global] Instance log_collection : Collection (list call) := {|
  find q log := [];
  insert_one gen d log := (Ok gen, log ++ [InsertOne d]);
  find_one_and_update q fields after log :=
    (None, log ++ [FindOneAndUpdate q fields]);
  delete_one q log := (0%nat, log ++ [DeleteOne q])
|}.

End Recorder.

(** ** Vocabulary of the statements *)

(** The announcement a document holds, field by field, following the data
    model: the id is the text of a native [_id] or a textual [_id] itself,
    [start_date] may be absent or null, every other field is present with
    its type. *)
Record holds_announcement (d : doc) (a : Announcement.t) : Prop := {
  holds_id :
    match d !! "_id" with
    | Some (VOid o) => Announcement.id a = Some (ObjectId.str o)
    | Some (VStr s) => Announcement.id a = Some s
    | _ => False
    end;
  holds_title : d !! "title" = Some (VStr (Announcement.title a));
  holds_message : d !! "message" = Some (VStr (Announcement.message a));
  holds_created_at :
    d !! "created_at" = Some (VDate (Announcement.created_at a));
  holds_start_date :
    match Announcement.start_date a with
    | Some t => d !! "start_date" = Some (VDate t)
    | None => d !! "start_date" = None ∨ d !! "start_date" = Some VNull
    end;
  holds_expiration_date :
    d !! "expiration_date" = Some (VDate (Announcement.expiration_date a));
  holds_author : d !! "author" = Some (VStr (Announcement.author a))
}.

(** The id of a document in the form it has at the interface. *)
Definition id_text (d : doc) : option string :=
  match d !! "_id" with
  | Some (VOid o) => Some (ObjectId.str o)
  | Some (VStr s) => Some s
  | _ => None
  end.

(** An update body that sets no field. *)
Definition unset : AnnouncementUpdate.t :=
  AnnouncementUpdate.mk None None None None.

Definition encode {A} (enc : A → value) (f : option A) : value :=
  match f with Some a => enc a | None => VNull end.

(** The value an update body supplies for a field name, if any. *)
Definition supplied_value (data : AnnouncementUpdate.t) (k : string)
    : option value :=
  if decide (k = "title") then encode VStr <$> AnnouncementUpdate.title data
  else if decide (k = "message") then
    encode VStr <$> AnnouncementUpdate.message data
  else if decide (k = "start_date") then
    encode VDate <$> AnnouncementUpdate.start_date data
  else if decide (k = "expiration_date") then
    encode VDate <$> AnnouncementUpdate.expiration_date data
  else None.

(** The invariant of the data model on a stored record: [expiration_date]
    is present, [title] and [message] are non-empty texts. *)
Definition well_kept (d : doc) : Prop :=
  (∃ t, d !! "expiration_date" = Some (VDate t))
  ∧ (∃ s, d !! "title" = Some (VStr s) ∧ s ≠ EmptyString)
  ∧ (∃ s, d !! "message" = Some (VStr s) ∧ s ≠ EmptyString).

(** ** Sample data *)

Module Sample.

Definition hexid : string := "507f1f77bcf86cd799439011".

Definition oid : ObjectId.t :=
  ObjectId.mk [80; 127; 31; 119; 188; 248; 108; 215; 153; 67; 144; 17]%N.

Definition other_oid : ObjectId.t :=
  ObjectId.mk [80; 127; 31; 119; 188; 248; 108; 215; 153; 67; 144; 18]%N.

Definition alice : identity := {| username := "alice" |}.

(** A record created through the API: native id. *)
Definition exam : doc :=
  <["_id" := VOid oid]>
  (<["title" := VStr "Exam week"]>
  (<["message" := VStr "Finals start Monday"]>
  (<["created_at" := VDate 1000]>
  (<["start_date" := VNull]>
  (<["expiration_date" := VDate 2000]>
  (<["author" := VStr "alice"]> ∅)))))).

(** A record whose id was stored as text. *)
Definition fair : doc :=
  <["_id" := VStr "science-fair"]>
  (<["title" := VStr "Science fair"]>
  (<["message" := VStr "Sign up in room 12"]>
  (<["created_at" := VDate 100]>
  (<["expiration_date" := VDate 500]>
  (<["author" := VStr "bob"]> ∅))))).

(** A record whose id was stored as the text of a native id. *)
Definition twin : doc :=
  <["_id" := VStr hexid]>
  (<["title" := VStr "Open day"]>
  (<["message" := VStr "Doors open at nine"]>
  (<["created_at" := VDate 200]>
  (<["expiration_date" := VDate 3000]>
  (<["author" := VStr "carol"]> ∅))))).

Definition exam_announcement : Announcement.t :=
  Announcement.mk (Some hexid) "Exam week" "Finals start Monday" 1000 None
    2000 "alice".

Definition fair_announcement : Announcement.t :=
  Announcement.mk (Some "science-fair") "Science fair" "Sign up in room 12"
    100 None 500 "bob".

Definition store : list doc := [exam; fair].

Definition announcements : list Announcement.t :=
  [exam_announcement; fair_announcement].

(** A create body in which the client also sends server-side fields. *)
Definition create_body : doc :=
  <["title" := VStr "Exam week"]>
  (<["message" := VStr "Finals start Monday"]>
  (<["expiration_date" := VDate 2000]>
  (<["author" := VStr "mallory"]>
  (<["created_at" := VDate 1]>
  (<["_id" := VStr "chosen"]> ∅))))).

Definition retitle : AnnouncementUpdate.t :=
  AnnouncementUpdate.mk (Some (Some "Updated")) None None None.

Definition blank_title : AnnouncementUpdate.t :=
  AnnouncementUpdate.mk (Some (Some EmptyString)) None None None.

Definition drop_expiration : AnnouncementUpdate.t :=
  AnnouncementUpdate.mk None None None (Some None).

End Sample.

(** ** Vocabulary of the further properties *)

(** The ids of the records of a store, in store order. *)
Definition ids (st : list doc) : list (option value) :=
  (λ d : doc, d !! "_id") <$> st.

(** An ObjectId as the driver generates it: twelve bytes. *)
Definition twelve_bytes (o : ObjectId.t) : Prop :=
  length (ObjectId.binary o) = 12%nat
  ∧ Forall (λ b, (b < 256)%N) (ObjectId.binary o).

(** The field names of the update model. *)
Definition update_keys : list string :=
  ["title"; "message"; "start_date"; "expiration_date"].

(** A text with its upper-case ASCII letters turned to lower case. *)
Definition lower (c : ascii) : ascii :=
  let n := N_of_ascii c in
  if ((65 <=? n) && (n <=? 90))%N then ascii_of_N (n + 32) else c.

Fixpoint lowercase (s : string) : string :=
  match s with
  | EmptyString => EmptyString
  | String c rest => String (lower c) (lowercase rest)
  end.

(** The record at [i] is the first one of the store under the id [v]. *)
Definition first_under (v : value) (st : list doc) (i : nat) (d : doc)
    : Prop :=
  st !! i = Some d
  ∧ d !! "_id" = Some v
  ∧ ∀ j e, (j < i)%nat → st !! j = Some e → e !! "_id" ≠ Some v.

(** ** Proof steps *)

(** Closes a goal [k ∉ [k1; ...; kn]] between distinct literal keys. *)
Ltac not_listed :=
  let Hin := fresh "Hin" in
  intros Hin;
  repeat (apply elem_of_cons in Hin as [Hin|Hin]; [discriminate Hin|]);
  by apply elem_of_nil in Hin.

(** * Properties *)

(** ** The sample data is what it is meant to be *)

Example sample_oid_of_text : ObjectId.init Sample.hexid = Some Sample.oid.
Proof. reflexivity. Qed.

Example sample_text_of_oid : ObjectId.str Sample.oid = Sample.hexid.
Proof. reflexivity. Qed.

Example sample_upper_case :
  ObjectId.init "507F1F77BCF86CD799439011" = Some Sample.oid.
Proof. reflexivity. Qed.

Example sample_not_an_oid : ObjectId.init "science-fair" = None.
Proof. reflexivity. Qed.

(** ** Facts about the store operations *)

Section StoreFacts.

Import Store.

Lemma update_first_unmatched q fields after st :
  Forall (λ d, matches q d = false) st →
  update_first q fields after st = (None, st).
Proof.
  induction 1 as [|d rest Hd _ IH]; simpl; [done|].
  by rewrite Hd, IH.
Qed.

Lemma update_first_inv q fields after st r st' :
  update_first q fields after st = (r, st') →
  match r with
  | None => st' = st ∧ Forall (λ d, matches q d = false) st
  | Some x =>
      ∃ i d, st !! i = Some d ∧ matches q d = true
             ∧ st' = <[i := set_fields fields d]> st
             ∧ x = (if after then set_fields fields d else d)
  end.
Proof.
  revert r st'. induction st as [|d rest IH]; simpl; intros r st' Heq.
  - by inversion Heq.
  - destruct (matches q d) eqn:Hm.
    + inversion Heq; subst. by exists 0%nat, d.
    + destruct (update_first q fields after rest) as [r0 rest'] eqn:Hrec.
      inversion Heq; subst. specialize (IH _ _ eq_refl).
      destruct r as [x|].
      * destruct IH as (i & e & Hi & He & -> & ->).
        by exists (S i), e.
      * destruct IH as [-> Hall]. split; [done|]. by constructor.
Qed.

Lemma delete_first_unmatched q st :
  Forall (λ d, matches q d = false) st → delete_first q st = (0%nat, st).
Proof.
  induction 1 as [|d rest Hd _ IH]; simpl; [done|].
  by rewrite Hd, IH.
Qed.

Lemma delete_first_inv q st n st' :
  delete_first q st = (n, st') →
  (n = 0%nat ∧ st' = st ∧ Forall (λ d, matches q d = false) st)
  ∨ (n = 1%nat ∧ ∃ i d, st !! i = Some d ∧ matches q d = true
                        ∧ st' = delete i st).
Proof.
  revert n st'. induction st as [|d rest IH]; simpl; intros n st' Heq.
  - inversion Heq. by left.
  - destruct (matches q d) eqn:Hm.
    + inversion Heq; subst. right. split; [done|]. by exists 0%nat, d.
    + destruct (delete_first q rest) as [n0 rest'] eqn:Hrec.
      inversion Heq; subst.
      destruct (IH _ _ eq_refl)
        as [(-> & -> & Hall)|(-> & i & e & Hi & He & ->)].
      * left. split; [done|]. split; [done|]. by constructor.
      * right. split; [done|]. by exists (S i), e.
Qed.

Lemma matches_id v d :
  matches [("_id", CEq v)] d = bool_decide (d !! "_id" = Some v).
Proof. unfold matches; simpl. by rewrite andb_true_r. Qed.

Lemma no_record_under_id v (st : list doc) :
  (∀ d, d ∈ st → d !! "_id" ≠ Some v) →
  Forall (λ d, matches [("_id", CEq v)] d = false) st.
Proof.
  intros Hno. apply Forall_forall. intros d Hd.
  rewrite matches_id. apply bool_decide_eq_false. by apply Hno.
Qed.

Lemma filter_matches_sublist q (st : list doc) :
  List.filter (matches q) st `sublist_of` st.
Proof.
  induction st as [|d rest IH]; simpl; [constructor|].
  destruct (matches q d); by constructor.
Qed.

Lemma for_each_Ok {A B} (f : A → result B) l ys :
  for_each f l = Ok ys ↔ Forall2 (λ x y, f x = Ok y) l ys.
Proof.
  revert ys. induction l as [|x rest IH]; simpl; intros ys.
  - split; [intros [= <-]; constructor | by inversion 1].
  - destruct (f x) as [y|e] eqn:Hx.
    + destruct (for_each f rest) as [zs|e] eqn:Hrest.
      * split.
        -- intros [= <-]. constructor; [done|]. by apply IH.
        -- inversion 1 as [|? y' ? zs' Hy Hzs]; subst.
           apply IH in Hzs. congruence.
      * split; [done|].
        inversion 1 as [|? y' ? zs' Hy Hzs]; subst.
        by apply IH in Hzs.
    + split; [done|]. inversion 1; congruence.
Qed.

End StoreFacts.

(** ** Reading a document into the response model *)

Section Reading.

Lemma stringify_id_other (d : doc) k :
  k ≠ "_id" → stringify_id d !! k = d !! k.
Proof.
  intros Hk. unfold stringify_id.
  destruct (d !! "_id") as [[]|]; try done.
  by rewrite lookup_insert_ne.
Qed.

Lemma read_id (d : doc) :
  field_opt_str (stringify_id d !! "_id")
  = match d !! "_id" with
    | Some (VDate _) => None
    | _ => Some (id_text d)
    end.
Proof.
  unfold stringify_id, id_text.
  destruct (d !! "_id") as [[]|] eqn:Hid; simpl; try by rewrite Hid.
  by rewrite lookup_insert_eq.
Qed.

(** Reading a document that holds an announcement gives that
    announcement. *)
Lemma read_holds d a :
  holds_announcement d a → Announcement.init (stringify_id d) = Ok a.
Proof.
  intros [Hid Ht Hm Hc Hs He Ha].
  unfold Announcement.init, Announcement.validate.
  rewrite read_id, !stringify_id_other by done.
  rewrite Ht, Hm, Hc, He, Ha. destruct a as [i ti m c s e au]; simpl in *.
  assert (field_opt_datetime (d !! "start_date") = Some s) as ->.
  { destruct s as [t|]; [by rewrite Hs|]. by destruct Hs as [-> | ->]. }
  unfold id_text. destruct (d !! "_id") as [[]|]; try done; by subst.
Qed.

(** Conversely, what the reader returns is what the document has. *)
Lemma read_inv d a :
  Announcement.init (stringify_id d) = Ok a →
  Announcement.id a = id_text d
  ∧ d !! "title" = Some (VStr (Announcement.title a))
  ∧ d !! "message" = Some (VStr (Announcement.message a))
  ∧ d !! "created_at" = Some (VDate (Announcement.created_at a))
  ∧ field_opt_datetime (d !! "start_date") = Some (Announcement.start_date a)
  ∧ d !! "expiration_date" = Some (VDate (Announcement.expiration_date a))
  ∧ d !! "author" = Some (VStr (Announcement.author a)).
Proof.
  unfold Announcement.init, Announcement.validate.
  rewrite read_id, !stringify_id_other by done.
  destruct (d !! "_id") as [[]|]; simpl;
    destruct (d !! "title") as [[]|]; simpl; try done;
    destruct (d !! "message") as [[]|]; simpl; try done;
    destruct (d !! "created_at") as [[]|]; simpl; try done;
    destruct (field_opt_datetime (d !! "start_date")); simpl; try done;
    destruct (d !! "expiration_date") as [[]|]; simpl; try done;
    destruct (d !! "author") as [[]|]; simpl; try done;
    by intros [= <-].
Qed.

Lemma read_inv_holds d a :
  Announcement.init (stringify_id d) = Ok a →
  is_Some (id_text d) → holds_announcement d a.
Proof.
  intros Hread [s Hs].
  destruct (read_inv _ _ Hread) as (Hid & Ht & Hm & Hc & Hst & He & Ha).
  split; try done.
  - rewrite Hid. unfold id_text in *.
    by destruct (d !! "_id") as [[]|].
  - destruct (d !! "start_date") as [[]|]; simpl in Hst; try done;
      injection Hst as <-; auto.
Qed.

End Reading.

(** ** Listing *)

(** C1. On a store whose documents hold the announcements [all] (in store
    order), listing with [active_only] true returns exactly those of [all]
    whose [expiration_date] is strictly greater than the time of the call,
    listing with [active_only] false returns [all], and a call without the
    parameter behaves as one with [active_only] true. *)
Theorem list_returns_active_subset (now : Z) (st : list doc)
    (all : list Announcement.t) :
  Forall2 holds_announcement st all →
  list_announcements now (Some true) st
  = Ok (filter (λ a, now < Announcement.expiration_date a) all)
  ∧ list_announcements now (Some false) st = Ok all
  ∧ list_announcements now None st = list_announcements now (Some true) st.
Proof.
  intros Hall. split; [|split; [|done]].
  - unfold list_announcements; simpl. apply for_each_Ok.
    induction Hall as [|d a st all Hd _ IH]; simpl; [constructor|].
    rewrite (holds_expiration_date _ _ Hd), andb_true_r, filter_cons.
    destruct (Z.ltb_spec now (Announcement.expiration_date a)).
    + rewrite decide_True by done. constructor; [|done].
      by apply read_holds.
    + rewrite decide_False by lia. done.
  - unfold list_announcements; simpl. apply for_each_Ok.
    induction Hall as [|d a st all Hd _ IH]; simpl; constructor; [|done].
    by apply read_holds.
Qed.

Lemma sample_store_holds :
  Forall2 holds_announcement Sample.store Sample.announcements.
Proof.
  repeat constructor; vm_compute;
    first [reflexivity | left; reflexivity | right; reflexivity].
Defined.

Lemma list_returns_active_subset_witness :
  Forall2 holds_announcement Sample.store Sample.announcements
  ∧ list_announcements 1000 (Some true) Sample.store
    = Ok [Sample.exam_announcement]
  ∧ list_announcements 1000 (Some false) Sample.store
    = Ok [Sample.exam_announcement; Sample.fair_announcement]
  ∧ list_announcements 1000 None Sample.store
    = list_announcements 1000 (Some true) Sample.store.
Proof.
  split; [exact sample_store_holds|].
  exact (list_returns_active_subset 1000 _ _ sample_store_holds).
Defined.

(** A record whose expiration time is the time of the call is not active. *)
Example list_excludes_expiring_now :
  list_announcements 2000 None Sample.store = Ok [].
Proof. reflexivity. Qed.

(** ** The fields of an update *)

Section UpdateFields.

Import Store.

Lemma put_lookup {A} k (enc : A → value) f (m : doc) j :
  AnnouncementUpdate.put k enc f m !! j
  = if decide (j = k) then
      match f with Some x => Some (encode enc x) | None => m !! j end
    else m !! j.
Proof.
  unfold AnnouncementUpdate.put.
  destruct f as [[a|]|]; simpl; case_decide; subst;
    by rewrite ?lookup_insert_eq, ?lookup_insert_ne.
Qed.

(** The dictionary of set fields has exactly the supplied values. *)
Lemma dict_lookup data k :
  AnnouncementUpdate.dict_exclude_unset data !! k = supplied_value data k.
Proof.
  unfold AnnouncementUpdate.dict_exclude_unset, supplied_value.
  rewrite !put_lookup, lookup_empty.
  destruct data as [ti m s e]; simpl.
  repeat case_decide; subst; try done;
    by repeat match goal with
       | |- context [match ?f with Some _ => _ | None => _ end] =>
           destruct f; simpl
       end.
Qed.

Lemma dict_empty_unset data :
  AnnouncementUpdate.dict_exclude_unset data = ∅ ↔ data = unset.
Proof.
  split; [|by intros ->].
  intros Hempty.
  assert (∀ k, supplied_value data k = None) as Hk.
  { intros k. by rewrite <- dict_lookup, Hempty, lookup_empty. }
  destruct data as [ti m s e].
  pose proof (Hk "title") as H1. pose proof (Hk "message") as H2.
  pose proof (Hk "start_date") as H3. pose proof (Hk "expiration_date") as H4.
  unfold supplied_value in *; simpl in *.
  destruct ti, m, s, e; simpl in *; done.
Qed.

(** A successful update found a record under the looked-up id, set the
    supplied fields in place and read the record as it stands afterwards. *)
Lemma update_announcement_Ok announcement_id data (st st' : list doc) a :
  update_announcement announcement_id data st = (Ok a, st') →
  ∃ i d,
    st !! i = Some d
    ∧ d !! "_id" = Some (id_value announcement_id)
    ∧ st' = <[i := AnnouncementUpdate.dict_exclude_unset data ∪ d]> st
    ∧ Announcement.init
        (stringify_id (AnnouncementUpdate.dict_exclude_unset data ∪ d))
      = Ok a.
Proof.
  unfold update_announcement. case_decide; [done|].
  simpl find_one_and_update.
  destruct (update_first _ _ true st) as [r st1] eqn:Hup.
  apply update_first_inv in Hup.
  destruct r as [x|]; [|done].
  destruct Hup as (i & d & Hi & Hm & -> & ->).
  case_decide; [done|]. intros [= Hread <-].
  exists i, d. repeat split; try done.
  rewrite matches_id in Hm. by apply bool_decide_eq_true in Hm.
Qed.

Lemma set_fields_lookup data (d : doc) k :
  (AnnouncementUpdate.dict_exclude_unset data ∪ d) !! k
  = match supplied_value data k with Some v => Some v | None => d !! k end.
Proof.
  rewrite lookup_union, dict_lookup.
  destruct (supplied_value data k), (d !! k); done.
Qed.

End UpdateFields.

(** ** Looking a record up by the id of the path *)

Section Lookup.

Import Store.

(** A text that is a valid native id is looked up as that native id, and
    finds the record stored under it, whatever the case of the digits. *)
Lemma lookup_native announcement_id o (d : doc) :
  ObjectId.init announcement_id = Some o →
  d !! "_id" = Some (VOid o) →
  matches [("_id", CEq (id_value announcement_id))] d = true.
Proof.
  intros Ho Hd. rewrite matches_id. unfold id_value. rewrite Ho.
  by apply bool_decide_eq_true.
Qed.

(** A text that is not a valid native id is looked up literally. *)
Lemma lookup_literal announcement_id (d : doc) :
  ObjectId.is_valid announcement_id = false →
  d !! "_id" = Some (VStr announcement_id) →
  matches [("_id", CEq (id_value announcement_id))] d = true.
Proof.
  unfold ObjectId.is_valid. intros Hv Hd. rewrite matches_id. unfold id_value.
  destruct (ObjectId.init announcement_id); [done|].
  by apply bool_decide_eq_true.
Qed.

(** A text that is a valid native id never finds a record whose id was
    stored as that text: only one of the two forms is tried. *)
Lemma lookup_text_of_native announcement_id (d : doc) :
  ObjectId.is_valid announcement_id = true →
  d !! "_id" = Some (VStr announcement_id) →
  matches [("_id", CEq (id_value announcement_id))] d = false.
Proof.
  unfold ObjectId.is_valid. intros Hv Hd. rewrite matches_id. unfold id_value.
  destruct (ObjectId.init announcement_id); [|done].
  apply bool_decide_eq_false. by rewrite Hd.
Qed.

End Lookup.

(** C2. The record [Sample.twin] has as its id the text of a native id.
    Deleting or updating under that very text finds nothing: both calls end
    in 404 and leave the record in place, although the lookup is meant to
    match either form of the id. *)
Theorem text_form_of_native_id_not_found :
  Sample.twin !! "_id" = Some (VStr Sample.hexid)
  ∧ delete_announcement Sample.hexid [Sample.twin]
    = (Raise (HTTPException 404 "Announcement not found."), [Sample.twin])
  ∧ update_announcement Sample.hexid Sample.retitle [Sample.twin]
    = (Raise (HTTPException 404 "Announcement not found."), [Sample.twin]).
Proof. repeat split; vm_compute; reflexivity. Qed.

(** The same text finds the record stored under the native id. *)
Example native_id_found :
  delete_announcement Sample.hexid [Sample.exam] = (Ok true, []).
Proof. reflexivity. Qed.

(** A text that is no native id finds the record stored under that text. *)
Example literal_id_found :
  delete_announcement "science-fair" Sample.store = (Ok true, [Sample.exam]).
Proof. vm_compute. reflexivity. Qed.

(** ** Updating without fields *)

(** C4. Whatever the collection behind the router, whatever the id and the
    state, an update whose body supplies none of the four fields ends in
    400 "No fields to update." with the state it started from: the result
    does not depend on any operation of the collection. *)
Theorem update_without_fields_is_400 {C : Type} `{Collection C}
    (announcement_id : string) (body : doc) (c : C) :
  body !! "title" = None →
  body !! "message" = None →
  body !! "start_date" = None →
  body !! "expiration_date" = None →
  put_announcements announcement_id body c
  = (Raise (HTTPException 400 "No fields to update."), c)
  ∧ update_announcement announcement_id unset c
    = (Raise (HTTPException 400 "No fields to update."), c).
Proof.
  intros Ht Hm Hs He.
  assert (update_announcement announcement_id unset c
          = (Raise (HTTPException 400 "No fields to update."), c)) as Hu.
  { unfold update_announcement.
    change (AnnouncementUpdate.dict_exclude_unset unset) with (∅ : doc).
    by rewrite decide_True. }
  split; [|done].
  unfold put_announcements, AnnouncementUpdate.parse.
  rewrite Ht, Hm, Hs, He. exact Hu.
Qed.

(** On the recording collection no call is logged, for an id that matches
    nothing and a body that carries only a field the model does not have. *)
Lemma update_without_fields_is_400_witness :
  put_announcements "science-fair" (<["author" := VStr "mallory"]> ∅)
    ([] : list Recorder.call)
  = (Raise (HTTPException 400 "No fields to update."), [])
  ∧ update_announcement "science-fair" unset ([] : list Recorder.call)
    = (Raise (HTTPException 400 "No fields to update."), []).
Proof.
  apply (update_without_fields_is_400 "science-fair"
           (<["author" := VStr "mallory"]> ∅) ([] : list Recorder.call));
    reflexivity.
Defined.

(** With a field to set, the same call reaches the collection. *)
Example update_with_field_is_recorded :
  (update_announcement "science-fair" Sample.retitle
     ([] : list Recorder.call)).2
  = [Recorder.FindOneAndUpdate [("_id", CEq (VStr "science-fair"))]
       (<["title" := VStr "Updated"]> ∅)].
Proof. reflexivity. Qed.

(** ** Ids that match nothing *)

(** C5, as stated, fails: on an empty store no id matches, yet an update
    that supplies no field ends in 400, not in 404. *)
Lemma update_unmatched_without_fields_not_404 :
  ¬ ((∀ d : doc, d ∈ ([] : list doc) →
                  d !! "_id" ≠ Some (id_value "science-fair")) →
     (update_announcement "science-fair" unset ([] : list doc)).1
     = Raise (HTTPException 404 "Announcement not found.")).
Proof.
  intros Hclaim.
  assert (∀ d : doc, d ∈ ([] : list doc) →
                     d !! "_id" ≠ Some (id_value "science-fair")) as Hno.
  { intros d Hd. by apply elem_of_nil in Hd. }
  specialize (Hclaim Hno). vm_compute in Hclaim. discriminate Hclaim.
Qed.

(** C5, amended. When no stored record has the looked-up id, an update that
    supplies at least one field ends in 404 and a delete ends in 404, and
    both leave the store as it was. *)
Theorem unmatched_id_is_404 (announcement_id : string)
    (data : AnnouncementUpdate.t) (st : list doc) :
  (∀ d, d ∈ st → d !! "_id" ≠ Some (id_value announcement_id)) →
  (data ≠ unset →
   update_announcement announcement_id data st
   = (Raise (HTTPException 404 "Announcement not found."), st))
  ∧ delete_announcement announcement_id st
    = (Raise (HTTPException 404 "Announcement not found."), st).
Proof.
  intros Hno. apply no_record_under_id in Hno. split.
  - intros Hdata. unfold update_announcement.
    rewrite decide_False by (by rewrite dict_empty_unset).
    simpl find_one_and_update. by rewrite update_first_unmatched.
  - unfold delete_announcement. simpl delete_one.
    by rewrite delete_first_unmatched.
Qed.

Lemma sample_store_lacks_other :
  ∀ d, d ∈ Sample.store →
       d !! "_id" ≠ Some (id_value "507f1f77bcf86cd799439012").
Proof.
  intros d Hd. unfold Sample.store in Hd.
  apply elem_of_cons in Hd as [-> | Hd]; [by vm_compute|].
  apply elem_of_cons in Hd as [-> | Hd]; [by vm_compute|].
  by apply elem_of_nil in Hd.
Defined.

Lemma unmatched_id_is_404_witness :
  update_announcement "507f1f77bcf86cd799439012" Sample.retitle Sample.store
  = (Raise (HTTPException 404 "Announcement not found."), Sample.store)
  ∧ delete_announcement "507f1f77bcf86cd799439012" Sample.store
    = (Raise (HTTPException 404 "Announcement not found."), Sample.store).
Proof.
  destruct (unmatched_id_is_404 "507f1f77bcf86cd799439012" Sample.retitle
              Sample.store sample_store_lacks_other) as [Hu Hd].
  split; [|exact Hd].
  apply Hu. discriminate.
Defined.

(** ** What an update changes *)

(** C7. A successful update changes one record, at the place where it was,
    and in that record exactly the fields the body supplies: a supplied
    field takes the supplied value, every other field (among them
    [author], [created_at] and [_id], which no body can supply) keeps its
    value, and every other record of the store is as before. *)
Theorem update_changes_supplied_fields_only (announcement_id : string)
    (data : AnnouncementUpdate.t) (st st' : list doc) (a : Announcement.t) :
  update_announcement announcement_id data st = (Ok a, st') →
  ∃ i d d',
    st !! i = Some d ∧ st' !! i = Some d'
    ∧ length st' = length st
    ∧ (∀ j, j ≠ i → st' !! j = st !! j)
    ∧ (∀ k v, supplied_value data k = Some v → d' !! k = Some v)
    ∧ (∀ k, supplied_value data k = None → d' !! k = d !! k)
    ∧ d' !! "author" = d !! "author"
    ∧ d' !! "created_at" = d !! "created_at"
    ∧ d' !! "_id" = d !! "_id".
Proof.
  intros Hup. apply update_announcement_Ok in Hup.
  destruct Hup as (i & d & Hi & _ & -> & _).
  exists i, d, (AnnouncementUpdate.dict_exclude_unset data ∪ d).
  split; [done|]. split.
  { apply list_lookup_insert_eq. by eapply lookup_lt_Some. }
  split; [apply length_insert|]. split.
  { intros j Hj. by apply list_lookup_insert_ne. }
  split; [intros k v Hk; by rewrite set_fields_lookup, Hk|].
  split; [intros k Hk; by rewrite set_fields_lookup, Hk|].
  by rewrite !set_fields_lookup.
Qed.

Lemma update_changes_supplied_fields_only_witness :
  ∃ i d d',
    Sample.store !! i = Some d
    ∧ [<["title" := VStr "Updated"]> Sample.exam; Sample.fair] !! i = Some d'
    ∧ length [<["title" := VStr "Updated"]> Sample.exam; Sample.fair]
      = length Sample.store
    ∧ (∀ j, j ≠ i →
         [<["title" := VStr "Updated"]> Sample.exam; Sample.fair] !! j
         = Sample.store !! j)
    ∧ (∀ k v, supplied_value Sample.retitle k = Some v → d' !! k = Some v)
    ∧ (∀ k, supplied_value Sample.retitle k = None → d' !! k = d !! k)
    ∧ d' !! "author" = d !! "author"
    ∧ d' !! "created_at" = d !! "created_at"
    ∧ d' !! "_id" = d !! "_id".
Proof.
  apply (update_changes_supplied_fields_only Sample.hexid Sample.retitle
           Sample.store _
           (Announcement.mk (Some Sample.hexid) "Updated"
              "Finals start Monday" 1000 None 2000 "alice")).
  vm_compute. reflexivity.
Defined.

(** The scenario of the specification: retitling leaves [message] and
    [expiration_date] as they were. *)
Example retitle_keeps_message_and_expiration :
  update_announcement Sample.hexid Sample.retitle Sample.store
  = (Ok (Announcement.mk (Some Sample.hexid) "Updated" "Finals start Monday"
           1000 None 2000 "alice"),
     [<["title" := VStr "Updated"]> Sample.exam; Sample.fair]).
Proof. vm_compute. reflexivity. Qed.

(** ** What an update returns *)

(** C10. The announcement a successful update returns is the one the
    updated record holds in the store after the call: the record under the
    looked-up id has the supplied values, and the returned announcement is
    read off that record, so it shows a supplied title, message or
    expiration date rather than the earlier one. *)
Theorem update_returns_record_after_update (announcement_id : string)
    (data : AnnouncementUpdate.t) (st st' : list doc) (a : Announcement.t) :
  update_announcement announcement_id data st = (Ok a, st') →
  ∃ i d',
    st' !! i = Some d'
    ∧ d' !! "_id" = Some (id_value announcement_id)
    ∧ holds_announcement d' a
    ∧ (∀ k v, supplied_value data k = Some v → d' !! k = Some v)
    ∧ (∀ s, AnnouncementUpdate.title data = Some (Some s) →
            Announcement.title a = s)
    ∧ (∀ s, AnnouncementUpdate.message data = Some (Some s) →
            Announcement.message a = s)
    ∧ (∀ t, AnnouncementUpdate.expiration_date data = Some (Some t) →
            Announcement.expiration_date a = t).
Proof.
  intros Hup. apply update_announcement_Ok in Hup.
  destruct Hup as (i & d & Hi & Hid & -> & Hread).
  set (d' := AnnouncementUpdate.dict_exclude_unset data ∪ d) in *.
  assert (d' !! "_id" = Some (id_value announcement_id)) as Hid'.
  { unfold d'. by rewrite set_fields_lookup. }
  assert (holds_announcement d' a) as Hholds.
  { apply read_inv_holds; [done|]. unfold id_text. rewrite Hid'.
    unfold id_value. by destruct (ObjectId.init announcement_id). }
  assert (∀ k v, supplied_value data k = Some v → d' !! k = Some v) as Hsup.
  { intros k v Hk. unfold d'. by rewrite set_fields_lookup, Hk. }
  exists i, d'. split.
  { apply list_lookup_insert_eq. by eapply lookup_lt_Some. }
  do 3 (split; [done|]). split; [|split].
  - intros s Hs. pose proof (Hsup "title" (VStr s)) as Hk.
    unfold supplied_value in Hk; simpl in Hk. rewrite Hs in Hk.
    specialize (Hk eq_refl). rewrite (holds_title _ _ Hholds) in Hk.
    congruence.
  - intros s Hs. pose proof (Hsup "message" (VStr s)) as Hk.
    unfold supplied_value in Hk; simpl in Hk. rewrite Hs in Hk.
    specialize (Hk eq_refl). rewrite (holds_message _ _ Hholds) in Hk.
    congruence.
  - intros t Ht. pose proof (Hsup "expiration_date" (VDate t)) as Hk.
    unfold supplied_value in Hk; simpl in Hk. rewrite Ht in Hk.
    specialize (Hk eq_refl).
    rewrite (holds_expiration_date _ _ Hholds) in Hk. congruence.
Qed.

Lemma update_returns_record_after_update_witness :
  ∃ i d',
    [<["title" := VStr "Updated"]> Sample.exam; Sample.fair] !! i = Some d'
    ∧ d' !! "_id" = Some (id_value Sample.hexid)
    ∧ holds_announcement d'
        (Announcement.mk (Some Sample.hexid) "Updated" "Finals start Monday"
           1000 None 2000 "alice")
    ∧ (∀ k v, supplied_value Sample.retitle k = Some v → d' !! k = Some v)
    ∧ (∀ s, AnnouncementUpdate.title Sample.retitle = Some (Some s) →
            "Updated" = s)
    ∧ (∀ s, AnnouncementUpdate.message Sample.retitle = Some (Some s) →
            "Finals start Monday" = s)
    ∧ (∀ t,
         AnnouncementUpdate.expiration_date Sample.retitle = Some (Some t) →
         2000 = t).
Proof.
  apply (update_returns_record_after_update Sample.hexid Sample.retitle
           Sample.store _
           (Announcement.mk (Some Sample.hexid) "Updated"
              "Finals start Monday" 1000 None 2000 "alice")).
  vm_compute. reflexivity.
Defined.

(** ** Creating *)

Section Creating.

Import Store.

(** With a generated id that is not in use, adding stores one new record
    at the end and returns the announcement it holds. *)
Lemma add_announcement_fresh now gen data user (st : list doc) :
  has_id (VOid gen) st = false →
  ∃ d,
    add_announcement now gen data user st
    = (Ok (Announcement.mk (Some (ObjectId.str gen))
             (AnnouncementCreate.title data) (AnnouncementCreate.message data)
             now (AnnouncementCreate.start_date data)
             (AnnouncementCreate.expiration_date data) (username user)),
       st ++ [d])
    ∧ d !! "_id" = Some (VOid gen)
    ∧ d !! "title" = Some (VStr (AnnouncementCreate.title data))
    ∧ d !! "message" = Some (VStr (AnnouncementCreate.message data))
    ∧ d !! "created_at" = Some (VDate now)
    ∧ d !! "start_date"
      = Some (from_option VDate VNull (AnnouncementCreate.start_date data))
    ∧ d !! "expiration_date"
      = Some (VDate (AnnouncementCreate.expiration_date data))
    ∧ d !! "author" = Some (VStr (username user)).
Proof.
  intros Hfresh. eexists. split.
  - unfold add_announcement. simpl insert_one. unfold insert.
    rewrite Hfresh. f_equal.
    unfold Announcement.init, Announcement.validate.
    rewrite !lookup_insert; simpl.
    by destruct (AnnouncementCreate.start_date data).
  - by rewrite !lookup_insert; simpl.
Qed.

Lemma add_announcement_inv now gen data user (st st' : list doc) r :
  add_announcement now gen data user st = (r, st') →
  (has_id (VOid gen) st = true ∧ r = Raise DuplicateKeyError ∧ st' = st)
  ∨ has_id (VOid gen) st = false.
Proof.
  destruct (has_id (VOid gen) st) eqn:Hid; [|by right].
  unfold add_announcement. simpl insert_one. unfold insert. rewrite Hid.
  intros [= <- <-]. by left.
Qed.

(** Reading the body looks at the four fields of the model only. *)
Lemma parse_create_agree (body body' : doc) :
  body' !! "title" = body !! "title" →
  body' !! "message" = body !! "message" →
  body' !! "start_date" = body !! "start_date" →
  body' !! "expiration_date" = body !! "expiration_date" →
  AnnouncementCreate.parse body' = AnnouncementCreate.parse body.
Proof.
  intros Ht Hm Hs He. unfold AnnouncementCreate.parse.
  by rewrite Ht, Hm, Hs, He.
Qed.

Lemma parse_create_inv body data :
  AnnouncementCreate.parse body = Some data →
  body !! "title" = Some (VStr (AnnouncementCreate.title data))
  ∧ body !! "message" = Some (VStr (AnnouncementCreate.message data))
  ∧ body !! "expiration_date"
    = Some (VDate (AnnouncementCreate.expiration_date data))
  ∧ AnnouncementCreate.title data ≠ EmptyString
  ∧ AnnouncementCreate.message data ≠ EmptyString.
Proof.
  unfold AnnouncementCreate.parse.
  destruct (body !! "title") as [[| ti | |]|]; simpl; try done.
  destruct (body !! "message") as [[| m | |]|]; simpl; try done.
  destruct (field_opt_datetime (body !! "start_date")); simpl; try done.
  destruct (body !! "expiration_date") as [[| | e |]|]; simpl; try done.
  destruct ti, m; simpl; try done. by intros [= <-].
Qed.

End Creating.

(** C3. Creating gives the same outcome whatever the body carries under
    [author], [created_at], [_id] or [id]; and when it succeeds, the
    returned announcement and the record added to the store have the
    username of the identity as author, the time of the call as
    [created_at], and the id the store generated. *)
Theorem create_sets_author_and_time (now : Z) (gen : ObjectId.t)
    (body : doc) (user : identity) (st : list doc) :
  (∀ body' : doc,
     (∀ k, k ∉ ["author"; "created_at"; "_id"; "id"] →
           body' !! k = body !! k) →
     post_announcements now gen body' user st
     = post_announcements now gen body user st)
  ∧ (∀ a st',
       post_announcements now gen body user st = (Ok a, st') →
       Announcement.author a = username user
       ∧ Announcement.created_at a = now
       ∧ Announcement.id a = Some (ObjectId.str gen)
       ∧ ∃ d, st' = st ++ [d]
              ∧ d !! "author" = Some (VStr (username user))
              ∧ d !! "created_at" = Some (VDate now)
              ∧ d !! "_id" = Some (VOid gen)).
Proof.
  split.
  - intros body' Hagree. unfold post_announcements.
    rewrite (parse_create_agree body body'); [done|apply Hagree; not_listed..].
  - intros a st'. unfold post_announcements.
    destruct (AnnouncementCreate.parse body) as [data|]; [|done].
    intros Hadd.
    destruct (add_announcement_inv _ _ _ _ _ _ _ Hadd)
      as [(_ & Hr & _)|Hfresh]; [discriminate Hr|].
    destruct (add_announcement_fresh now gen data user st Hfresh)
      as (d & Heq & Hid & _ & _ & Hc & _ & _ & Ha).
    rewrite Heq in Hadd. injection Hadd as <- <-. simpl.
    do 3 (split; [done|]). by exists d.
Qed.

(** The client's [author], [created_at] and [_id] leave no trace. *)
Example create_ignores_client_author :
  ∃ d,
    post_announcements 1000 Sample.oid Sample.create_body Sample.alice []
    = (Ok Sample.exam_announcement, [d])
    ∧ d !! "author" = Some (VStr "alice")
    ∧ d !! "created_at" = Some (VDate 1000)
    ∧ d !! "_id" = Some (VOid Sample.oid).
Proof. eexists. split; [reflexivity|]. by vm_compute. Qed.

Lemma create_sets_author_and_time_witness :
  post_announcements 1000 Sample.oid Sample.create_body Sample.alice []
  = (Ok Sample.exam_announcement, [Sample.exam])
  ∧ Announcement.author Sample.exam_announcement = username Sample.alice
  ∧ Announcement.created_at Sample.exam_announcement = 1000
  ∧ Announcement.id Sample.exam_announcement = Some (ObjectId.str Sample.oid)
  ∧ ∃ d, [Sample.exam] = [] ++ [d]
         ∧ d !! "author" = Some (VStr (username Sample.alice))
         ∧ d !! "created_at" = Some (VDate 1000)
         ∧ d !! "_id" = Some (VOid Sample.oid).
Proof.
  assert (post_announcements 1000 Sample.oid Sample.create_body Sample.alice []
          = (Ok Sample.exam_announcement, [Sample.exam])) as Hrun
    by (vm_compute; reflexivity).
  split; [exact Hrun|].
  exact (proj2 (create_sets_author_and_time 1000 Sample.oid
                  Sample.create_body Sample.alice [])
           Sample.exam_announcement [Sample.exam] Hrun).
Defined.

(** C8. For a body whose [title] and [message] are texts, whose
    [start_date] is absent, null or a time and whose [expiration_date] is
    absent or a time, creating under an unused generated id is rejected as
    invalid, with the store untouched, when the title is empty, the message
    is empty or the expiration date is missing; otherwise it succeeds, and
    the store gains one record, which holds the returned announcement. *)
Theorem create_rejects_empty_or_missing (now : Z) (gen : ObjectId.t)
    (body : doc) (user : identity) (st : list doc)
    (t m : string) (e : option Z) :
  body !! "title" = Some (VStr t) →
  body !! "message" = Some (VStr m) →
  is_Some (field_opt_datetime (body !! "start_date")) →
  body !! "expiration_date" = VDate <$> e →
  Store.has_id (VOid gen) st = false →
  (t = EmptyString ∨ m = EmptyString ∨ e = None →
   post_announcements now gen body user st
   = (Raise RequestValidationError, st))
  ∧ (t ≠ EmptyString → m ≠ EmptyString → e ≠ None →
     ∃ a d,
       post_announcements now gen body user st = (Ok a, st ++ [d])
       ∧ holds_announcement d a
       ∧ Announcement.title a = t
       ∧ Announcement.message a = m
       ∧ Some (Announcement.expiration_date a) = e).
Proof.
  intros Ht Hm [s Hs] He Hfresh.
  unfold post_announcements, AnnouncementCreate.parse.
  rewrite Ht, Hm, Hs, He. simpl. split.
  - intros [-> | [-> | ->]]; simpl; [by destruct e| |done].
    destruct e; simpl; [|done]. by rewrite andb_false_r.
  - intros Hne_t Hne_m Hne_e.
    destruct e as [x|]; [simpl|done].
    destruct t as [|c t]; [done|]. destruct m as [|c' m]; [done|]. simpl.
    destruct (add_announcement_fresh now gen
                (AnnouncementCreate.mk (String c t) (String c' m) s x)
                user st Hfresh)
      as (d & Heq & Hid & Hti & Hme & Hc & Hst & Hex & Ha).
    eexists _, d. split; [exact Heq|]. simpl in *.
    split; [|done].
    split; simpl; try done.
    + by rewrite Hid.
    + rewrite Hst. destruct s; simpl; auto.
Qed.

Lemma create_rejects_empty_or_missing_witness :
  (post_announcements 1000 Sample.other_oid
     (<["title" := VStr EmptyString]> Sample.create_body) Sample.alice Sample.store
   = (Raise RequestValidationError, Sample.store))
  ∧ (∃ a d,
       post_announcements 1000 Sample.other_oid Sample.create_body
         Sample.alice Sample.store
       = (Ok a, Sample.store ++ [d])
       ∧ holds_announcement d a
       ∧ Announcement.title a = "Exam week"
       ∧ Announcement.message a = "Finals start Monday"
       ∧ Some (Announcement.expiration_date a) = Some 2000).
Proof.
  split.
  - refine (proj1 (create_rejects_empty_or_missing 1000 Sample.other_oid
                     (<["title" := VStr EmptyString]> Sample.create_body) Sample.alice
                     Sample.store EmptyString "Finals start Monday" (Some 2000)
                     _ _ _ _ _) _);
      first [reflexivity | by eexists | by left].
  - refine (proj2 (create_rejects_empty_or_missing 1000 Sample.other_oid
                     Sample.create_body Sample.alice Sample.store
                     "Exam week" "Finals start Monday" (Some 2000)
                     _ _ _ _ _) _ _ _);
      first [reflexivity | by eexists | discriminate].
Defined.

(** ** The id at the interface *)

(** C9. The id of a returned announcement is a text.  Adding returns the
    text of the native id under which the record was stored.  Each
    announcement listed, and the announcement an update returns, carries
    the id of its record in text form ([id_text]): the text of a native id,
    or the textual id itself. *)
Theorem returned_id_is_text :
  (∀ now gen data user (st st' : list doc) a,
     add_announcement now gen data user st = (Ok a, st') →
     Announcement.id a = Some (ObjectId.str gen)
     ∧ ∃ d, st' = st ++ [d] ∧ d !! "_id" = Some (VOid gen))
  ∧ (∀ now active_only (st : list doc) l,
       list_announcements now active_only st = Ok l →
       ∃ ds, ds `sublist_of` st
             ∧ Forall2 (λ d a, Announcement.id a = id_text d) ds l)
  ∧ (∀ announcement_id data (st st' : list doc) a,
       update_announcement announcement_id data st = (Ok a, st') →
       ∃ d', d' ∈ st'
             ∧ Announcement.id a = id_text d'
             ∧ is_Some (Announcement.id a)).
Proof.
  split; [|split].
  - intros now gen data user st st' a Hadd.
    destruct (add_announcement_inv _ _ _ _ _ _ _ Hadd)
      as [(_ & Hr & _)|Hfresh]; [discriminate Hr|].
    destruct (add_announcement_fresh now gen data user st Hfresh)
      as (d & Heq & Hid & _).
    rewrite Heq in Hadd. injection Hadd as <- <-. split; [done|].
    by exists d.
  - intros now active_only st l. unfold list_announcements.
    set (q := if default true active_only
              then [("expiration_date", CGt now)] else []).
    assert ((if default true active_only
             then find [("expiration_date", CGt now)] st
             else find [] st) = List.filter (Store.matches q) st) as ->.
    { unfold q. by destruct (default true active_only). }
    intros Hl. apply for_each_Ok in Hl.
    exists (List.filter (Store.matches q) st).
    split; [apply filter_matches_sublist|].
    eapply Forall2_impl; [exact Hl|].
    intros d a Hread. by apply read_inv in Hread as [? _].
  - intros announcement_id data st st' a Hup.
    apply update_announcement_Ok in Hup.
    destruct Hup as (i & d & Hi & Hid & -> & Hread).
    exists (AnnouncementUpdate.dict_exclude_unset data ∪ d).
    split.
    { apply list_elem_of_lookup. exists i.
      apply list_lookup_insert_eq. by eapply lookup_lt_Some. }
    apply read_inv in Hread as [Hida _]. split; [done|].
    rewrite Hida. unfold id_text. rewrite set_fields_lookup; simpl.
    rewrite Hid. unfold id_value.
    by destruct (ObjectId.init announcement_id).
Qed.

Lemma returned_id_is_text_witness :
  (Announcement.id Sample.exam_announcement = Some (ObjectId.str Sample.oid)
   ∧ ∃ d, [Sample.exam] = [] ++ [d] ∧ d !! "_id" = Some (VOid Sample.oid))
  ∧ (∃ ds, ds `sublist_of` Sample.store
           ∧ Forall2 (λ d a, Announcement.id a = id_text d) ds
               Sample.announcements)
  ∧ (∃ d', d' ∈ [<["title" := VStr "Updated"]> Sample.exam; Sample.fair]
           ∧ Some Sample.hexid = id_text d'
           ∧ is_Some (Some Sample.hexid)).
Proof.
  destruct returned_id_is_text as (Hadd & Hlist & Hupdate).
  split; [|split].
  - apply (Hadd 1000 Sample.oid
             (AnnouncementCreate.mk "Exam week" "Finals start Monday" None 2000)
             Sample.alice [] [Sample.exam] Sample.exam_announcement).
    vm_compute. reflexivity.
  - apply (Hlist 1000 (Some false) Sample.store Sample.announcements).
    reflexivity.
  - apply (Hupdate Sample.hexid Sample.retitle Sample.store _
             (Announcement.mk (Some Sample.hexid) "Updated"
                "Finals start Monday" 1000 None 2000 "alice")).
    vm_compute. reflexivity.
Defined.

(** ** The invariant of stored records *)

Section Invariant.

Import Store.

Lemma sample_store_well_kept : Forall well_kept Sample.store.
Proof.
  repeat constructor; eexists; (split || idtac); by vm_compute.
Qed.

(** Creating keeps the invariant: the model of the request asks for a
    non-empty title and message and for an expiration date. *)
Lemma create_keeps_invariant now gen body user (st : list doc) :
  Forall well_kept st →
  Forall well_kept (post_announcements now gen body user st).2.
Proof.
  intros Hst. unfold post_announcements.
  destruct (AnnouncementCreate.parse body) as [data|] eqn:Hparse; [|done].
  apply parse_create_inv in Hparse as (_ & _ & _ & Hnt & Hnm).
  destruct (has_id (VOid gen) st) eqn:Hid.
  - unfold add_announcement. simpl insert_one. unfold insert.
    by rewrite Hid.
  - destruct (add_announcement_fresh now gen data user st Hid)
      as (d & -> & _ & Ht & Hm & _ & _ & He & _). simpl.
    apply Forall_app. split; [done|]. constructor; [|constructor].
    split; [by eexists|]. split; by eexists.
Qed.

(** Deleting keeps it as well: it only removes a record. *)
Lemma delete_keeps_invariant announcement_id (st : list doc) :
  Forall well_kept st →
  Forall well_kept (delete_announcement announcement_id st).2.
Proof.
  intros Hst. unfold delete_announcement. simpl delete_one.
  destruct (delete_first _ st) as [n st'] eqn:Hdel.
  apply delete_first_inv in Hdel
    as [(-> & -> & _)|(-> & i & d & _ & _ & ->)]; simpl; [done|].
  by apply Forall_delete.
Qed.

End Invariant.

(** C6. The store [Sample.store] satisfies the invariant.  Updating its
    first record with a body whose title is the empty text succeeds and
    stores an empty title; updating it with [{"expiration_date": null}]
    stores a null expiration date (and then fails to build the response).
    After either call the record no longer satisfies the invariant. *)
Theorem update_breaks_record_invariant :
  Forall well_kept Sample.store
  ∧ update_announcement Sample.hexid Sample.blank_title Sample.store
    = (Ok (Announcement.mk (Some Sample.hexid) EmptyString "Finals start Monday" 1000
             None 2000 "alice"),
       [<["title" := VStr EmptyString]> Sample.exam; Sample.fair])
  ∧ ¬ well_kept (<["title" := VStr EmptyString]> Sample.exam)
  ∧ update_announcement Sample.hexid Sample.drop_expiration Sample.store
    = (Raise ResponseValidationError,
       [<["expiration_date" := VNull]> Sample.exam; Sample.fair])
  ∧ ¬ well_kept (<["expiration_date" := VNull]> Sample.exam).
Proof.
  split; [exact sample_store_well_kept|].
  split; [vm_compute; reflexivity|].
  split.
  { intros (_ & (s & Hs & Hne) & _). vm_compute in Hs.
    injection Hs as <-. done. }
  split; [vm_compute; reflexivity|].
  intros ((t & Ht) & _). vm_compute in Ht. discriminate Ht.
Qed.

(** The same bodies arrive at the endpoint through the route: the model of
    an update accepts an empty text and a null. *)
Example update_model_accepts_blank_and_null :
  AnnouncementUpdate.parse (<["title" := VStr EmptyString]> ∅)
  = Some Sample.blank_title
  ∧ AnnouncementUpdate.parse (<["expiration_date" := VNull]> ∅)
    = Some Sample.drop_expiration
  ∧ AnnouncementCreate.parse (<["title" := VStr EmptyString]> Sample.create_body)
    = None.
Proof. repeat split; vm_compute; reflexivity. Qed.

(** Once a record has lost its expiration date, listing everything fails. *)
Example list_fails_after_null_expiration :
  list_announcements 1000 (Some false)
    [<["expiration_date" := VNull]> Sample.exam; Sample.fair]
  = Raise ResponseValidationError.
Proof. vm_compute. reflexivity. Qed.

(** * Further properties of the endpoints *)

(** ** The first record under an id *)

Section FirstMatch.

Import Store.

Lemma first_under_dec v (st : list doc) :
  (∀ d, d ∈ st → d !! "_id" ≠ Some v) ∨ ∃ i d, first_under v st i d.
Proof.
  induction st as [|d rest IH].
  - left. intros d Hd. by apply elem_of_nil in Hd.
  - destruct (decide (d !! "_id" = Some v)) as [Hd|Hd].
    + right. exists 0%nat, d. split; [done|]. split; [done|].
      intros j e Hj. lia.
    + destruct IH as [Hno|(i & e & Hi & He & Hfirst)].
      * left. intros x Hx. apply elem_of_cons in Hx as [->|Hx]; auto.
      * right. exists (S i), e. split; [done|]. split; [done|].
        intros [|j] x Hj Hx; simpl in Hx; [by injection Hx as <-|].
        apply (Hfirst j x); [lia|done].
Qed.

Lemma update_first_at v fields after (st : list doc) i d :
  first_under v st i d →
  update_first [("_id", CEq v)] fields after st
  = (Some (if after then set_fields fields d else d),
     <[i := set_fields fields d]> st).
Proof.
  revert i. induction st as [|x rest IH]; intros i (Hi & Hd & Hfirst).
  - done.
  - destruct i as [|i]; simpl in Hi.
    + injection Hi as ->. simpl.
      rewrite andb_true_r, bool_decide_eq_true_2 by done. done.
    + cbn [update_first]. rewrite matches_id.
      rewrite bool_decide_eq_false_2
        by (apply (Hfirst 0%nat x); [lia|done]).
      rewrite (IH i); [done|]. split; [done|]. split; [done|].
      intros j e Hj He. apply (Hfirst (S j) e); [lia|done].
Qed.

Lemma delete_first_at v (st : list doc) i d :
  first_under v st i d →
  delete_first [("_id", CEq v)] st = (1%nat, delete i st).
Proof.
  revert i. induction st as [|x rest IH]; intros i (Hi & Hd & Hfirst).
  - done.
  - destruct i as [|i]; simpl in Hi.
    + injection Hi as ->. simpl.
      rewrite andb_true_r, bool_decide_eq_true_2 by done. done.
    + cbn [delete_first]. rewrite matches_id.
      rewrite bool_decide_eq_false_2
        by (apply (Hfirst 0%nat x); [lia|done]).
      rewrite (IH i); [done|]. split; [done|]. split; [done|].
      intros j e Hj He. apply (Hfirst (S j) e); [lia|done].
Qed.

(** [$set] with the fields of an update body leaves the id alone. *)
Lemma set_fields_id data (d : doc) :
  (AnnouncementUpdate.dict_exclude_unset data ∪ d) !! "_id" = d !! "_id".
Proof. by rewrite set_fields_lookup. Qed.

Lemma set_fields_twice (fields d : doc) :
  fields ∪ (fields ∪ d) = fields ∪ d.
Proof. by rewrite (assoc_L (∪)), (idemp_L (∪)). Qed.

Lemma set_fields_nonempty (fields d : doc) : fields ≠ ∅ → fields ∪ d ≠ ∅.
Proof.
  intros Hne Hempty. apply Hne. apply map_eq. intros k.
  rewrite lookup_empty.
  assert ((fields ∪ d) !! k = None) as Hk by (by rewrite Hempty, lookup_empty).
  apply lookup_union_None in Hk. tauto.
Qed.

(** What an update does when a record is found. *)
Lemma update_announcement_at announcement_id data (st : list doc) i d :
  data ≠ unset →
  first_under (id_value announcement_id) st i d →
  update_announcement announcement_id data st
  = (Announcement.init
       (stringify_id (AnnouncementUpdate.dict_exclude_unset data ∪ d)),
     <[i := AnnouncementUpdate.dict_exclude_unset data ∪ d]> st).
Proof.
  intros Hdata Hfirst. unfold update_announcement.
  assert (AnnouncementUpdate.dict_exclude_unset data ≠ ∅) as Hne
    by (by rewrite dict_empty_unset).
  rewrite decide_False by done.
  simpl find_one_and_update. rewrite (update_first_at _ _ _ _ _ _ Hfirst).
  unfold set_fields. rewrite decide_False; [done|].
  by apply set_fields_nonempty.
Qed.

Lemma update_announcement_none announcement_id data (st : list doc) :
  data ≠ unset →
  (∀ d, d ∈ st → d !! "_id" ≠ Some (id_value announcement_id)) →
  update_announcement announcement_id data st
  = (Raise (HTTPException 404 "Announcement not found."), st).
Proof.
  intros Hdata Hno. unfold update_announcement.
  rewrite decide_False by (by rewrite dict_empty_unset).
  simpl find_one_and_update.
  by rewrite update_first_unmatched by (by apply no_record_under_id).
Qed.

Lemma delete_announcement_at announcement_id (st : list doc) i d :
  first_under (id_value announcement_id) st i d →
  delete_announcement announcement_id st = (Ok true, delete i st).
Proof.
  intros Hfirst. unfold delete_announcement. simpl delete_one.
  by rewrite (delete_first_at _ _ _ _ Hfirst).
Qed.

Lemma delete_announcement_none announcement_id (st : list doc) :
  (∀ d, d ∈ st → d !! "_id" ≠ Some (id_value announcement_id)) →
  delete_announcement announcement_id st
  = (Raise (HTTPException 404 "Announcement not found."), st).
Proof.
  intros Hno. unfold delete_announcement. simpl delete_one.
  by rewrite delete_first_unmatched by (by apply no_record_under_id).
Qed.

Lemma ids_insert_same (st : list doc) i (d d' : doc) :
  st !! i = Some d → d' !! "_id" = d !! "_id" →
  ids (<[i := d']> st) = ids st.
Proof.
  intros Hi Hid. unfold ids. rewrite list_fmap_insert, Hid.
  apply list_insert_id. by rewrite list_lookup_fmap, Hi.
Qed.

End FirstMatch.

(** ** Every outcome of a delete and of an update *)

(** X1. A delete has two outcomes only.  Either no record has the
    looked-up id, and it ends in 404 with the store as it was; or it
    succeeds, and the store loses the first record under that id and nothing
    else. *)
Theorem delete_removes_first_or_nothing (announcement_id : string)
    (st : list doc) :
  ((∀ d, d ∈ st → d !! "_id" ≠ Some (id_value announcement_id))
   ∧ delete_announcement announcement_id st
     = (Raise (HTTPException 404 "Announcement not found."), st))
  ∨ (∃ i d,
       first_under (id_value announcement_id) st i d
       ∧ delete_announcement announcement_id st = (Ok true, delete i st)).
Proof.
  destruct (first_under_dec (id_value announcement_id) st)
    as [Hno|(i & d & Hfirst)].
  - left. split; [done|]. by apply delete_announcement_none.
  - right. exists i, d. split; [done|]. by eapply delete_announcement_at.
Qed.

(** X2. An update has three outcomes only.  With no field supplied it ends
    in 400; with a field supplied and no record under the looked-up id it
    ends in 404; in both cases the store is as it was.  Otherwise the
    supplied fields are set in the first record under that id, and the
    result is that record read into the response model: when the reading
    fails, the fields have been written all the same. *)
Theorem update_outcomes (announcement_id : string)
    (data : AnnouncementUpdate.t) (st : list doc) :
  (data = unset
   ∧ update_announcement announcement_id data st
     = (Raise (HTTPException 400 "No fields to update."), st))
  ∨ (data ≠ unset
     ∧ (∀ d, d ∈ st → d !! "_id" ≠ Some (id_value announcement_id))
     ∧ update_announcement announcement_id data st
       = (Raise (HTTPException 404 "Announcement not found."), st))
  ∨ (data ≠ unset
     ∧ ∃ i d,
         first_under (id_value announcement_id) st i d
         ∧ update_announcement announcement_id data st
           = (Announcement.init
                (stringify_id
                   (AnnouncementUpdate.dict_exclude_unset data ∪ d)),
              <[i := AnnouncementUpdate.dict_exclude_unset data ∪ d]> st)).
Proof.
  destruct (decide (AnnouncementUpdate.dict_exclude_unset data = ∅))
    as [Hempty|Hne].
  - left. apply dict_empty_unset in Hempty as ->. split; [done|].
    unfold update_announcement. by rewrite decide_True.
  - right. assert (data ≠ unset) as Hdata by (by rewrite <- dict_empty_unset).
    destruct (first_under_dec (id_value announcement_id) st)
      as [Hno|(i & d & Hfirst)].
    + left. split; [done|]. split; [done|].
      by apply update_announcement_none.
    + right. split; [done|]. exists i, d. split; [done|].
      by apply update_announcement_at.
Qed.

(** X3. An update is idempotent: repeating it on the store it left gives
    the same result and the same store. *)
Theorem update_twice_is_update_once (announcement_id : string)
    (data : AnnouncementUpdate.t) (st : list doc) :
  update_announcement announcement_id data
    (update_announcement announcement_id data st).2
  = update_announcement announcement_id data st.
Proof.
  destruct (decide (AnnouncementUpdate.dict_exclude_unset data = ∅))
    as [Hempty|Hne].
  - unfold update_announcement. by rewrite !decide_True.
  - assert (data ≠ unset) as Hdata by (by rewrite <- dict_empty_unset).
    destruct (first_under_dec (id_value announcement_id) st)
      as [Hno|(i & d & Hfirst)].
    + rewrite (update_announcement_none _ _ _ Hdata Hno). simpl.
      by apply update_announcement_none.
    + rewrite (update_announcement_at _ _ _ _ _ Hdata Hfirst). simpl.
      set (fields := AnnouncementUpdate.dict_exclude_unset data) in *.
      destruct Hfirst as (Hi & Hd & Hbefore).
      assert (first_under (id_value announcement_id)
                (<[i := fields ∪ d]> st) i (fields ∪ d)) as Hagain.
      { split; [|split].
        - apply list_lookup_insert_eq. by eapply lookup_lt_Some.
        - unfold fields. by rewrite set_fields_id.
        - intros j e Hj He. rewrite list_lookup_insert_ne in He by lia.
          by apply (Hbefore j e). }
      rewrite (update_announcement_at _ _ _ _ _ Hdata Hagain).
      fold fields. by rewrite set_fields_twice, list_insert_insert_eq.
Qed.

(** An update leaves the ids of the store as they are. *)
Lemma update_announcement_ids announcement_id data (st : list doc) :
  ids (update_announcement announcement_id data st).2 = ids st.
Proof.
  destruct (decide (AnnouncementUpdate.dict_exclude_unset data = ∅))
    as [Hempty|Hne].
  - unfold update_announcement. by rewrite decide_True.
  - assert (data ≠ unset) as Hdata by (by rewrite <- dict_empty_unset).
    destruct (first_under_dec (id_value announcement_id) st)
      as [Hno|(i & d & Hfirst)].
    + by rewrite (update_announcement_none _ _ _ Hdata Hno).
    + rewrite (update_announcement_at _ _ _ _ _ Hdata Hfirst). simpl.
      destruct Hfirst as (Hi & _ & _).
      apply (ids_insert_same _ _ d); [done|]. apply set_fields_id.
Qed.

(** X4. Whatever its outcome, an update leaves the store with the same
    number of records under the same ids in the same order: it never adds a
    record, never removes one and never changes an id. *)
Theorem update_keeps_ids (announcement_id : string)
    (data : AnnouncementUpdate.t) (st : list doc) :
  ids (update_announcement announcement_id data st).2 = ids st
  ∧ length (update_announcement announcement_id data st).2 = length st.
Proof.
  pose proof (update_announcement_ids announcement_id data st) as Hids.
  split; [done|].
  apply (f_equal length) in Hids. unfold ids in Hids.
  by rewrite !length_fmap in Hids.
Qed.

(** ** The id returned by a create *)

Section IdRoundTrip.

Import Store.

Lemma hex_digit_read n :
  (n < 16)%N →
  ObjectId.is_space (ObjectId.hex_digit n) = false
  ∧ ObjectId.hex_value (ObjectId.hex_digit n) = Some n.
Proof.
  intros Hn.
  assert (n = 0 ∨ n = 1 ∨ n = 2 ∨ n = 3 ∨ n = 4 ∨ n = 5 ∨ n = 6 ∨ n = 7
          ∨ n = 8 ∨ n = 9 ∨ n = 10 ∨ n = 11 ∨ n = 12 ∨ n = 13 ∨ n = 14
          ∨ n = 15)%N as Hcases by lia.
  repeat (destruct Hcases as [->|Hcases]; [by vm_compute|]).
  subst n. by vm_compute.
Qed.

Lemma fromhex_hexlify bs :
  Forall (λ b, (b < 256)%N) bs →
  ObjectId.fromhex (ObjectId.hexlify bs) = Some bs.
Proof.
  induction 1 as [|b rest Hb _ IH]; [done|].
  assert (b / 16 < 16)%N as Hhi
    by (apply N.Div0.div_lt_upper_bound; lia).
  assert (b mod 16 < 16)%N as Hlo by (apply N.mod_lt; lia).
  destruct (hex_digit_read _ Hhi) as [Hs1 Hv1].
  destruct (hex_digit_read _ Hlo) as [_ Hv2].
  cbn [ObjectId.hexlify ObjectId.fromhex].
  rewrite Hs1, Hv1, Hv2, IH. simpl. f_equal. f_equal.
  symmetry. apply N.div_mod. lia.
Qed.

Lemma length_hexlify bs :
  String.length (ObjectId.hexlify bs) = (2 * length bs)%nat.
Proof. induction bs as [|b rest IH]; simpl; [done|]. rewrite IH. lia. Qed.

(** The text of a twelve-byte id reads back as that id. *)
Lemma init_str o : twelve_bytes o → ObjectId.init (ObjectId.str o) = Some o.
Proof.
  destruct o as [bs]. intros [Hlen Hbytes]. simpl in *.
  unfold ObjectId.init, ObjectId.str. simpl.
  rewrite length_hexlify, Hlen. simpl.
  by rewrite fromhex_hexlify.
Qed.

Lemma has_id_false v (st : list doc) :
  has_id v st = false → ∀ d, d ∈ st → d !! "_id" ≠ Some v.
Proof.
  unfold has_id. induction st as [|x rest IH]; simpl; intros Hno d Hd.
  - by apply elem_of_nil in Hd.
  - apply orb_false_elim in Hno as [Hx Hrest].
    apply elem_of_cons in Hd as [->|Hd]; [|by apply IH].
    by apply bool_decide_eq_false in Hx.
Qed.

(** The record a create appends is the first one under the new id. *)
Lemma first_under_appended v (st : list doc) (d : doc) :
  has_id v st = false → d !! "_id" = Some v →
  first_under v (st ++ [d]) (length st) d.
Proof.
  intros Hno Hd. split; [|split; [done|]].
  - by rewrite lookup_app_r, Nat.sub_diag by lia.
  - intros j e Hj He. rewrite lookup_app_l in He by done.
    apply (has_id_false _ _ Hno). apply list_elem_of_lookup. by exists j.
Qed.

End IdRoundTrip.

Lemma sample_oid_twelve_bytes : twelve_bytes Sample.oid.
Proof. split; [reflexivity|]. repeat constructor. Defined.

(** X5. The id a create returns finds the record it created.  When the
    generated id has twelve bytes, deleting under the returned id succeeds
    and gives back the store as it was before the create, and an update
    under the returned id sets its fields in the created record. *)
Theorem created_id_finds_created_record (now : Z) (gen : ObjectId.t)
    (data : AnnouncementCreate.t) (user : identity) (st st' : list doc)
    (a : Announcement.t) :
  twelve_bytes gen →
  add_announcement now gen data user st = (Ok a, st') →
  ∃ s d,
    Announcement.id a = Some s
    ∧ st' = st ++ [d]
    ∧ delete_announcement s st' = (Ok true, st)
    ∧ ∀ upd, upd ≠ unset →
        (update_announcement s upd st').2
        = st ++ [AnnouncementUpdate.dict_exclude_unset upd ∪ d].
Proof.
  intros Hgen Hadd.
  destruct (add_announcement_inv _ _ _ _ _ _ _ Hadd)
    as [(_ & Hr & _)|Hfresh]; [discriminate Hr|].
  destruct (add_announcement_fresh now gen data user st Hfresh)
    as (d & Heq & Hid & _).
  rewrite Heq in Hadd. injection Hadd as <- <-.
  exists (ObjectId.str gen), d. split; [done|]. split; [done|].
  assert (first_under (id_value (ObjectId.str gen)) (st ++ [d])
            (length st) d) as Hfirst.
  { unfold id_value. rewrite (init_str _ Hgen).
    by apply first_under_appended. }
  split.
  - rewrite (delete_announcement_at _ _ _ _ Hfirst).
    by rewrite delete_middle, app_nil_r.
  - intros upd Hupd.
    rewrite (update_announcement_at _ _ _ _ _ Hupd Hfirst). simpl.
    rewrite <- (Nat.add_0_r (length st)) at 1. by rewrite insert_app_r.
Qed.

Lemma created_id_finds_created_record_witness :
  ∃ s d,
    Announcement.id Sample.exam_announcement = Some s
    ∧ [Sample.fair; Sample.exam] = [Sample.fair] ++ [d]
    ∧ delete_announcement s [Sample.fair; Sample.exam]
      = (Ok true, [Sample.fair])
    ∧ ∀ upd, upd ≠ unset →
        (update_announcement s upd [Sample.fair; Sample.exam]).2
        = [Sample.fair] ++ [AnnouncementUpdate.dict_exclude_unset upd ∪ d].
Proof.
  apply (created_id_finds_created_record 1000 Sample.oid
           (AnnouncementCreate.mk "Exam week" "Finals start Monday" None 2000)
           Sample.alice [Sample.fair] [Sample.fair; Sample.exam]
           Sample.exam_announcement sample_oid_twelve_bytes).
  vm_compute. reflexivity.
Defined.

(** ** Listing after other calls, and when it fails *)

Section ListingFacts.

Import Store.





Lemma find_all (st : list doc) : List.filter (matches []) st = st.
Proof. induction st as [|d rest IH]; simpl; [done|]. by rewrite IH. Qed.



End ListingFacts.



(** X7. Active listings only shrink with time: when the listing of active
    announcements succeeds at some time, it succeeds at every later time,
    and returns, in the same order, those of the earlier result that have
    not expired at the later time. *)
Theorem active_listing_shrinks_with_time (now now' : Z) (st : list doc)
    (l : list Announcement.t) :
  now ≤ now' →
  list_announcements now None st = Ok l →
  list_announcements now' None st
  = Ok (filter (λ a, now' < Announcement.expiration_date a) l).
Proof.
  intros Hle. unfold list_announcements; simpl.
  revert l. induction st as [|d rest IH]; intros l; simpl.
  - by intros [= <-].
  - rewrite !andb_true_r.
    destruct (d !! "expiration_date") as [[| |t|]|] eqn:Hd; try by apply IH.
    destruct (Z.ltb_spec now t) as [Hnow|Hnow].
    + simpl.
      destruct (Announcement.init (stringify_id d)) as [y|] eqn:Hread;
        [|done].
      destruct (for_each _ (List.filter _ rest)) as [ys|] eqn:Hrest; [|done].
      intros [= <-].
      destruct (read_inv _ _ Hread) as (_ & _ & _ & _ & _ & Hexp & _).
      rewrite Hd in Hexp. injection Hexp as ->.
      rewrite filter_cons. specialize (IH ys eq_refl).
      destruct (Z.ltb_spec now' (Announcement.expiration_date y)).
      * rewrite decide_True by done. simpl. by rewrite Hread, IH.
      * rewrite decide_False by lia. done.
    + intros Hl. destruct (Z.ltb_spec now' t); [lia|]. by apply IH.
Qed.

Lemma active_listing_shrinks_with_time_witness :
  list_announcements 1000 None Sample.store
  = Ok (filter (λ a, 1000 < Announcement.expiration_date a)
          [Sample.exam_announcement; Sample.fair_announcement]).
Proof.
  apply (active_listing_shrinks_with_time 400 1000 Sample.store
           [Sample.exam_announcement; Sample.fair_announcement]).
  - lia.
  - reflexivity.
Defined.



(** ** The fields an update writes *)

Section BodyFields.

Lemma supplied_str v f :
  AnnouncementUpdate.supplied field_opt_str v = Some f →
  encode VStr <$> f = v.
Proof.
  unfold AnnouncementUpdate.supplied.
  destruct v as [[]|]; simpl; try done; by intros [= <-].
Qed.

Lemma supplied_datetime v f :
  AnnouncementUpdate.supplied field_opt_datetime v = Some f →
  encode VDate <$> f = v.
Proof.
  unfold AnnouncementUpdate.supplied.
  destruct v as [[]|]; simpl; try done; by intros [= <-].
Qed.

Lemma parse_update_inv body data :
  AnnouncementUpdate.parse body = Some data →
  AnnouncementUpdate.supplied field_opt_str (body !! "title")
  = Some (AnnouncementUpdate.title data)
  ∧ AnnouncementUpdate.supplied field_opt_str (body !! "message")
    = Some (AnnouncementUpdate.message data)
  ∧ AnnouncementUpdate.supplied field_opt_datetime (body !! "start_date")
    = Some (AnnouncementUpdate.start_date data)
  ∧ AnnouncementUpdate.supplied field_opt_datetime
      (body !! "expiration_date")
    = Some (AnnouncementUpdate.expiration_date data).
Proof.
  unfold AnnouncementUpdate.parse.
  destruct (AnnouncementUpdate.supplied field_opt_str (body !! "title"));
    simpl; [|done].
  destruct (AnnouncementUpdate.supplied field_opt_str (body !! "message"));
    simpl; [|done].
  destruct (AnnouncementUpdate.supplied field_opt_datetime
              (body !! "start_date")); simpl; [|done].
  destruct (AnnouncementUpdate.supplied field_opt_datetime
              (body !! "expiration_date")); simpl; [|done].
  by intros [= <-].
Qed.

Lemma update_keys_spec k :
  k ∈ update_keys
  ↔ k = "title" ∨ k = "message" ∨ k = "start_date" ∨ k = "expiration_date".
Proof.
  unfold update_keys. rewrite !elem_of_cons, elem_of_nil. tauto.
Qed.

End BodyFields.

(** X9. The fields an update sets are the entries of the request body
    under the four names of the update model, value for value, null
    included; an entry of the body under any other name is dropped. *)
Theorem update_fields_are_body_fields (body : doc)
    (data : AnnouncementUpdate.t) (k : string) :
  AnnouncementUpdate.parse body = Some data →
  AnnouncementUpdate.dict_exclude_unset data !! k
  = if decide (k ∈ update_keys) then body !! k else None.
Proof.
  intros Hparse.
  apply parse_update_inv in Hparse as (Ht & Hm & Hs & He).
  apply supplied_str in Ht, Hm. apply supplied_datetime in Hs, He.
  rewrite dict_lookup. unfold supplied_value.
  destruct (decide (k ∈ update_keys)) as [Hin|Hout].
  - apply update_keys_spec in Hin as [-> | [-> | [-> | ->]]]; simpl; done.
  - rewrite update_keys_spec in Hout.
    repeat case_decide; try done; tauto.
Qed.

Lemma update_fields_are_body_fields_witness :
  AnnouncementUpdate.dict_exclude_unset Sample.retitle !! "author"
  = if decide ("author" ∈ update_keys)
    then (<["title" := VStr "Updated"]>
            (<["author" := VStr "mallory"]> ∅) : doc) !! "author"
    else None.
Proof.
  apply (update_fields_are_body_fields
           (<["title" := VStr "Updated"]> (<["author" := VStr "mallory"]> ∅))
           Sample.retitle "author").
  reflexivity.
Defined.

(** ** Unique ids *)

Section UniqueIds.

Import Store.

Lemma ids_lookup (st : list doc) i d :
  st !! i = Some d → ids st !! i = Some (d !! "_id").
Proof. intros Hi. unfold ids. by rewrite list_lookup_fmap, Hi. Qed.

(** With unique ids, removing the record under an id leaves no record
    under that id. *)
Lemma delete_leaves_none v (st : list doc) i d :
  NoDup (ids st) → st !! i = Some d → d !! "_id" = Some v →
  ∀ e, e ∈ delete i st → e !! "_id" ≠ Some v.
Proof.
  intros Hnodup Hi Hd e He Hev.
  apply list_elem_of_lookup in He as [j Hj].
  rewrite list_lookup_delete in Hj.
  set (j' := if decide (j < i)%nat is left _ then j else S j) in *.
  assert (j' ≠ i) as Hne by (unfold j'; case_decide; lia).
  apply Hne. apply (NoDup_lookup (ids st) j' i (Some v)); [done| |].
  - by rewrite (ids_lookup _ _ _ Hj), Hev.
  - by rewrite (ids_lookup _ _ _ Hi), Hd.
Qed.

Lemma delete_announcement_ids announcement_id (st : list doc) :
  ids (delete_announcement announcement_id st).2 `sublist_of` ids st.
Proof.
  destruct (first_under_dec (id_value announcement_id) st)
    as [Hno|(i & d & Hfirst)].
  - by rewrite (delete_announcement_none _ _ Hno).
  - rewrite (delete_announcement_at _ _ _ _ Hfirst). simpl.
    unfold ids. rewrite list_fmap_delete. apply sublist_delete.
Qed.

Lemma add_announcement_ids now gen data user (st : list doc) :
  ids (add_announcement now gen data user st).2 = ids st
  ∨ (has_id (VOid gen) st = false
     ∧ ids (add_announcement now gen data user st).2
       = ids st ++ [Some (VOid gen)]).
Proof.
  destruct (has_id (VOid gen) st) eqn:Hid.
  - left. unfold add_announcement. simpl insert_one. unfold insert.
    by rewrite Hid.
  - right. split; [done|].
    destruct (add_announcement_fresh now gen data user st Hid)
      as (d & -> & Hd & _). simpl.
    unfold ids. by rewrite fmap_app, <- Hd.
Qed.

End UniqueIds.

(** X10. In a store whose ids are unique, a successful delete leaves no
    record under the deleted id: deleting again under the same id ends in
    404, and so does an update that supplies a field. *)
Theorem deleted_id_is_gone (announcement_id : string) (st st' : list doc) :
  NoDup (ids st) →
  delete_announcement announcement_id st = (Ok true, st') →
  delete_announcement announcement_id st'
  = (Raise (HTTPException 404 "Announcement not found."), st')
  ∧ ∀ data, data ≠ unset →
      update_announcement announcement_id data st'
      = (Raise (HTTPException 404 "Announcement not found."), st').
Proof.
  intros Hnodup Hdel.
  destruct (first_under_dec (id_value announcement_id) st)
    as [Hno|(i & d & Hfirst)].
  - by rewrite (delete_announcement_none _ _ Hno) in Hdel.
  - rewrite (delete_announcement_at _ _ _ _ Hfirst) in Hdel.
    injection Hdel as <-. destruct Hfirst as (Hi & Hd & _).
    pose proof (delete_leaves_none _ _ _ _ Hnodup Hi Hd) as Hgone.
    split; [by apply delete_announcement_none|].
    intros data Hdata. by apply update_announcement_none.
Qed.

Lemma sample_store_unique_ids : NoDup (ids Sample.store).
Proof.
  apply (bool_decide_unpack _). vm_compute. exact I.
Defined.

Lemma deleted_id_is_gone_witness :
  delete_announcement Sample.hexid [Sample.fair]
  = (Raise (HTTPException 404 "Announcement not found."), [Sample.fair])
  ∧ ∀ data, data ≠ unset →
      update_announcement Sample.hexid data [Sample.fair]
      = (Raise (HTTPException 404 "Announcement not found."), [Sample.fair]).
Proof.
  apply (deleted_id_is_gone Sample.hexid Sample.store [Sample.fair]
           sample_store_unique_ids).
  vm_compute. reflexivity.
Defined.

(** X11. The ids of the store stay unique: from a store with unique ids,
    a create (which the store refuses under an id in use), an update and a
    delete each lead to a store with unique ids, whatever their outcome. *)
Theorem ids_stay_unique (st : list doc) :
  NoDup (ids st) →
  (∀ now gen data user,
     NoDup (ids (add_announcement now gen data user st).2))
  ∧ (∀ announcement_id data,
       NoDup (ids (update_announcement announcement_id data st).2))
  ∧ (∀ announcement_id,
       NoDup (ids (delete_announcement announcement_id st).2)).
Proof.
  intros Hnodup. split; [|split].
  - intros now gen data user.
    destruct (add_announcement_ids now gen data user st)
      as [->|(Hfresh & ->)]; [done|].
    apply NoDup_app. split; [done|]. split; [|apply NoDup_singleton].
    intros x Hx Hgen. apply list_elem_of_singleton in Hgen as ->.
    unfold ids in Hx. apply list_elem_of_fmap in Hx as (d & Hd & Hin).
    by apply (has_id_false _ _ Hfresh d).
  - intros announcement_id data. by rewrite update_announcement_ids.
  - intros announcement_id.
    eapply sublist_NoDup; [exact Hnodup|apply delete_announcement_ids].
Qed.

Lemma ids_stay_unique_witness :
  (∀ now gen data user,
     NoDup (ids (add_announcement now gen data user Sample.store).2))
  ∧ (∀ announcement_id data,
       NoDup (ids (update_announcement announcement_id data Sample.store).2))
  ∧ (∀ announcement_id,
       NoDup (ids (delete_announcement announcement_id Sample.store).2)).
Proof.
  exact (ids_stay_unique Sample.store sample_store_unique_ids).
Defined.

(** ** The case of the digits of a native id *)

Section LetterCase.

Lemma lower_read c :
  ObjectId.is_space (lower c) = ObjectId.is_space c
  ∧ ObjectId.hex_value (lower c) = ObjectId.hex_value c.
Proof.
  destruct c as [[] [] [] [] [] [] [] []]; by vm_compute.
Qed.

Lemma fromhex_two a b r :
  ObjectId.fromhex (String a (String b r))
  = if ObjectId.is_space a then ObjectId.fromhex (String b r)
    else match ObjectId.hex_value a, ObjectId.hex_value b with
         | Some h, Some l => cons (16 * h + l)%N <$> ObjectId.fromhex r
         | _, _ => None
         end.
Proof. reflexivity. Qed.

Lemma fromhex_lowercase s :
  ObjectId.fromhex (lowercase s) = ObjectId.fromhex s
  ∧ ∀ c, ObjectId.fromhex (lowercase (String c s))
         = ObjectId.fromhex (String c s).
Proof.
  induction s as [|c' rest [IHP IHQ]].
  - split; [done|]. intros c. cbn [lowercase ObjectId.fromhex].
    by rewrite (proj1 (lower_read c)).
  - split; [apply IHQ|]. intros c.
    change (lowercase (String c (String c' rest)))
      with (String (lower c) (String (lower c') (lowercase rest))).
    rewrite !fromhex_two.
    destruct (lower_read c) as [-> ->]. destruct (lower_read c') as [_ ->].
    rewrite IHP.
    change (String (lower c') (lowercase rest))
      with (lowercase (String c' rest)).
    by rewrite IHQ.
Qed.

Lemma length_lowercase s : String.length (lowercase s) = String.length s.
Proof. induction s as [|c rest IH]; simpl; [done|]. by rewrite IH. Qed.

Lemma init_lowercase s : ObjectId.init (lowercase s) = ObjectId.init s.
Proof.
  unfold ObjectId.init.
  by rewrite length_lowercase, (proj1 (fromhex_lowercase s)).
Qed.

End LetterCase.

(** X12. A text that is a valid native id is looked up without regard to
    the case of its letters: under its lower-case form an update and a
    delete do exactly what they do under the text itself. *)
Theorem native_id_ignores_case (announcement_id : string) (st : list doc) :
  ObjectId.is_valid announcement_id = true →
  delete_announcement (lowercase announcement_id) st
  = delete_announcement announcement_id st
  ∧ ∀ data,
      update_announcement (lowercase announcement_id) data st
      = update_announcement announcement_id data st.
Proof.
  unfold ObjectId.is_valid. intros Hvalid.
  assert (id_value (lowercase announcement_id) = id_value announcement_id)
    as Hid.
  { unfold id_value. rewrite init_lowercase.
    by destruct (ObjectId.init announcement_id). }
  split.
  - unfold delete_announcement. by rewrite Hid.
  - intros data. unfold update_announcement. by rewrite Hid.
Qed.

Lemma native_id_ignores_case_witness :
  delete_announcement (lowercase "507F1F77BCF86CD799439011") Sample.store
  = delete_announcement "507F1F77BCF86CD799439011" Sample.store
  ∧ ∀ data,
      update_announcement (lowercase "507F1F77BCF86CD799439011") data
        Sample.store
      = update_announcement "507F1F77BCF86CD799439011" data Sample.store.
Proof.
  apply (native_id_ignores_case "507F1F77BCF86CD799439011" Sample.store).
  reflexivity.
Defined.

(** A textual id is looked up as it is written. *)
Example text_id_is_case_sensitive :
  delete_announcement "Science-Fair" Sample.store
  = (Raise (HTTPException 404 "Announcement not found."), Sample.store).
Proof. vm_compute. reflexivity. Qed.

(** ** Using the ids and the announcements a listing shows *)

(** X13. The id a listing shows for a record addresses that record.  In a
    store with unique ids, take a record whose id is a native id of twelve
    bytes, or a text that is not a valid native id; then a delete under the
    id shown for it succeeds and removes exactly that record. *)
Theorem shown_id_deletes_record (st : list doc) (i : nat) (d : doc)
    (a : Announcement.t) (s : string) :
  NoDup (ids st) →
  st !! i = Some d →
  Announcement.init (stringify_id d) = Ok a →
  Announcement.id a = Some s →
  (∀ o, d !! "_id" = Some (VOid o) → twelve_bytes o) →
  (∀ t, d !! "_id" = Some (VStr t) → ObjectId.is_valid t = false) →
  delete_announcement s st = (Ok true, delete i st).
Proof.
  intros Hnodup Hi Hread Hs Hnative Htext.
  apply read_inv in Hread as (Hid & _). rewrite Hs in Hid.
  assert (d !! "_id" = Some (id_value s)) as Hd.
  { unfold id_text in Hid. unfold id_value.
    destruct (d !! "_id") as [[| t | | o]|] eqn:Hkey; try done.
    - injection Hid as ->. specialize (Htext t eq_refl).
      unfold ObjectId.is_valid in Htext.
      by destruct (ObjectId.init t).
    - injection Hid as ->. by rewrite (init_str o (Hnative o eq_refl)). }
  apply (delete_announcement_at _ _ _ d). split; [done|]. split; [done|].
  intros j e Hj He Heid.
  assert (j = i); [|lia].
  apply (NoDup_lookup (ids st) j i (Some (id_value s))); [done| |].
  - by rewrite (ids_lookup _ _ _ He), Heid.
  - by rewrite (ids_lookup _ _ _ Hi), Hd.
Qed.

Lemma shown_id_deletes_record_witness :
  delete_announcement "science-fair" Sample.store
  = (Ok true, delete 1%nat Sample.store).
Proof.
  apply (shown_id_deletes_record Sample.store 1%nat Sample.fair
           Sample.fair_announcement "science-fair" sample_store_unique_ids);
    try reflexivity.
  - intros o Ho. vm_compute in Ho. discriminate Ho.
  - intros t Ht. vm_compute in Ht. injection Ht as <-. reflexivity.
Defined.

(** X14. After a successful update, the listing of all records is the
    listing from before the update with the returned announcement in the
    place of the updated record; every other announcement is listed as
    before, at the same position. *)
Theorem updated_record_is_listed_in_place (announcement_id : string)
    (data : AnnouncementUpdate.t) (st st' : list doc) (a : Announcement.t)
    (now : Z) (all : list Announcement.t) :
  update_announcement announcement_id data st = (Ok a, st') →
  list_announcements now (Some false) st = Ok all →
  ∃ i, (i < length all)%nat
       ∧ list_announcements now (Some false) st' = Ok (<[i := a]> all).
Proof.
  intros Hup. apply update_announcement_Ok in Hup.
  destruct Hup as (i & d & Hi & _ & -> & Hread).
  unfold list_announcements. cbn [find Store.list_collection default].
  simpl. rewrite !find_all. intros Hall. apply for_each_Ok in Hall.
  exists i. split.
  - rewrite <- (Forall2_length _ _ _ Hall). by eapply lookup_lt_Some.
  - apply for_each_Ok. by apply Forall2_insert.
Qed.

Lemma updated_record_is_listed_in_place_witness :
  ∃ i, (i < length Sample.announcements)%nat
       ∧ list_announcements 1000 (Some false)
           [<["title" := VStr "Updated"]> Sample.exam; Sample.fair]
         = Ok (<[i := Announcement.mk (Some Sample.hexid) "Updated"
                        "Finals start Monday" 1000 None 2000 "alice"]>
                 Sample.announcements).
Proof.
  apply (updated_record_is_listed_in_place Sample.hexid Sample.retitle
           Sample.store _ _ 1000 Sample.announcements).
  - vm_compute. reflexivity.
  - reflexivity.
Defined.
